(** * Advanced search plugin: merge, start points and request handling

    A shallow embedding of [plugin-src/advsearch/advsearch.py] and the
    properties of its merge-and-paginate glue code.

    Layout: Python values and builtins, the Trac request interface, the
    plugin's functions in source order, then the theorems. *)

From Stdlib Require Import ZArith QArith Lqa String Ascii List Bool.
From Stdlib Require Import Sorting.Permutation Sorting.Sorted.
From Stdlib Require Import Structures.OrderedTypeEx.
From stdpp Require Import base option list gmap strings.

Set Warnings "-register-all".

Open Scope Z_scope.
Open Scope string_scope.
Open Scope list_scope.

(** ** Python values *)

(** The values a backend stores in a result dict: numbers (the score) and
    strings (title, source, summary, date, author).  Numbers are
    rationals: every finite float and every int is one; NaN is not
    represented. *)
Inductive value :=
| VNum (q : Q)
| VStr (s : string).

(** Object references.  Result dicts are mutated in place by the plugin,
    so lists hold references and a heap maps each to its dict. *)
Definition loc := nat.
Definition heap := loc -> gmap string value.

Definition upd (h : heap) (l : loc) (d : gmap string value) : heap :=
  fun l' => if Nat.eqb l' l then d else h l'.

(** Exceptions the modelled code can raise. *)
Inductive exn :=
| KeyError (k : string)
| TypeError
| PermissionError (action : string)
| ExternalError
| Unmodelled.

Definition exc := sum exn.

#[global] Instance exc_ret : MRet exc := fun A x => inr x.
#[global] Instance exc_bind : MBind exc :=
  fun A B f m => match m with inl e => inl e | inr x => f x end.

(** [d[k]] *)
Definition getitem {V : Type} (d : gmap string V) (k : string) : exc V :=
  match d !! k with
  | Some v => inr v
  | None => inl (KeyError k)
  end.

(** ** Python builtins *)

(** [<] on values as CPython 2 orders them: numbers numerically, strings
    lexicographically, and every number before every string. *)
Definition Qltb (a b : Q) : bool := negb (Qle_bool b a).

Definition py_lt (a b : value) : bool :=
  match a, b with
  | VNum x, VNum y => Qltb x y
  | VNum _, VStr _ => true
  | VStr _, VNum _ => false
  | VStr s, VStr t => String.ltb s t
  end.

(** [v == s] for a string literal [s]. *)
Definition py_eq_str (v : value) (s : string) : bool :=
  match v with
  | VStr t => String.eqb t s
  | VNum _ => false
  end.

(** [l[:stop]]: a negative stop counts from the end. *)
Definition slice_to {A : Type} (l : list A) (stop : Z) : list A :=
  let n := Z.of_nat (length l) in
  let stop' := if (stop <? 0)%Z then Z.max 0 (n + stop) else Z.min stop n in
  firstn (Z.to_nat stop') l.

Section ListSort.
Context {A K : Type} (lt : K -> K -> bool).

(** One step of the forward insertion sort: the new element goes to the
    right of every element that is not greater than it. *)
Fixpoint insert_right (x : K * A) (sorted : list (K * A)) : list (K * A) :=
  match sorted with
  | [] => [x]
  | y :: rest =>
      if lt (fst x) (fst y) then x :: y :: rest
      else y :: insert_right x rest
  end.

(** Stable ascending sort of decorated items, left to right. *)
Definition sort_forward (l : list (K * A)) : list (K * A) :=
  fold_left (fun sorted x => insert_right x sorted) l [].

(** [list.sort(reverse=...)] on decorated items.  CPython keeps a
    reverse sort stable by reversing the list, sorting forward, and
    reversing the outcome. *)
Definition sort_decorated (reverse : bool) (l : list (K * A)) : list (K * A) :=
  if reverse then rev (sort_forward (rev l)) else sort_forward l.
End ListSort.

(** [re.match] for patterns made of literal characters and optional
    characters ([c?]): the pattern has to match at the start of the
    string, and an optional character is tried first. *)
Inductive re_item :=
| ReChar (c : ascii)
| ReOpt (c : ascii).

Fixpoint re_match (pattern : list re_item) (s : string) : bool :=
  match pattern with
  | [] => true
  | ReChar c :: rest =>
      match s with
      | String c' s' => Ascii.eqb c' c && re_match rest s'
      | EmptyString => false
      end
  | ReOpt c :: rest =>
      match s with
      | String c' s' => Ascii.eqb c' c && re_match rest s'
      | EmptyString => false
      end
      || re_match rest s
  end.

(** [int(s)] for a string: an integer literal, optionally preceded by a
    sign and surrounded by whitespace; [None] stands for ValueError. *)
Definition is_space (c : ascii) : bool :=
  let n := N_of_ascii c in
  ((9 <=? n) && (n <=? 13))%N || (n =? 32)%N.

Definition digit_of (c : ascii) : option Z :=
  let n := N_of_ascii c in
  if ((48 <=? n) && (n <=? 57))%N then Some (Z.of_N n - 48) else None.

Fixpoint lstrip (s : string) : string :=
  match s with
  | String c s' => if is_space c then lstrip s' else s
  | EmptyString => EmptyString
  end.

(** Digits followed by optional trailing whitespace, accumulated in [acc];
    [seen] records that at least one digit was read. *)
Fixpoint digits_then_space (s : string) (seen : bool) (acc : Z) : option Z :=
  match s with
  | EmptyString => if seen then Some acc else None
  | String c s' =>
      match digit_of c with
      | Some d => digits_then_space s' true (10 * acc + d)
      | None =>
          if seen && is_space c && (match lstrip s' with EmptyString => true | _ => false end)
          then Some acc else None
      end
  end.

Definition int_of_string (s : string) : option Z :=
  match lstrip s with
  | String "+" s' => digits_then_space s' false 0
  | String "-" s' => Z.opp <$> digits_then_space s' false 0
  | s' => digits_then_space s' false 0
  end.

(** A request value that is either a string from the query string or an
    integer default supplied by the code. *)
Inductive scalar :=
| SInt (z : Z)
| SStr (s : string).

(** [int(x)]; [None] stands for ValueError, the only exception [int]
    raises on these arguments. *)
Definition py_int (x : scalar) : option Z :=
  match x with
  | SInt z => Some z
  | SStr s => int_of_string s
  end.

(** ** The Trac request interface *)

(** A request parameter is one string, or a list when it was repeated
    (Trac only builds the list on the second occurrence, so it is never
    empty). *)
Inductive arg :=
| AStr (s : string)
| AList (first : string) (rest : list string).

(** [req.args.getfirst(name, default)]; [None] means the default applies. *)
Definition getfirst (args : gmap string arg) (name : string) : option string :=
  match args !! name with
  | None => None
  | Some (AStr s) => Some s
  | Some (AList s _) => Some s
  end.

(** [req.args.getlist(name)] *)
Definition getlist (args : gmap string arg) (name : string) : list string :=
  match args !! name with
  | None => []
  | Some (AStr s) => [s]
  | Some (AList s rest) => s :: rest
  end.

Record request := {
  args : gmap string arg;
  perm : gset string
}.

(** What the template sees of a [Paginator]. *)
Record paginator := {
  items : list loc;
  has_next_page : bool;
  has_previous_page : bool;
  pag_nonzero : bool;
  pag_len : Z
}.

(** Values of the [data] dict handed to backends and to the template. *)
Inductive dval :=
| DNone
| DInt (z : Z)
| DStr (s : string)
| DList (l : list string)
| DStartPoints (m : gmap string scalar)
| DFilters (l : list (string * option arg))
| DResults (p : paginator).

Definition dval_of_arg (a : option arg) : dval :=
  match a with
  | None => DNone
  | Some (AStr s) => DStr s
  | Some (AList s rest) => DList (s :: rest)
  end.

Definition dval_of_first (s : option string) : dval :=
  match s with
  | None => DNone
  | Some s => DStr s
  end.

(** Calls into [trac.web.chrome] recorded on the request. *)
Inductive chrome :=
| AddWarning (msg : string)
| AddStylesheet (path : string)
| AddScript (path : string)
| AddLink (rel href title : string).

(** What [simplejson.dumps] is applied to. *)
Inductive json :=
| JInt (z : Z)
| JStr (s : string)
| JList (l : list json)
| JObj (l : list (string * json)).

(** ** IAdvSearchBackend *)

(** A backend.  [query_backend] receives the shared [data] dict and the
    heap and may change both; it returns the total count and the list of
    result dicts. *)
Record provider := {
  get_name : string;
  query_backend :
    gmap string dval -> heap -> (Z * list loc) * (gmap string dval * heap)
}.

(** ** StartPoints *)

Module StartPoints.

Definition FORMAT_STRING (name : string) : string :=
  ("provider_start_point:" ++ name)%string.

(** [StartPoints.parse_args(req_args, provider_list)] *)
Fixpoint parse_args_loop (req_args : gmap string arg) (provider_list : list provider)
    (start_points : gmap string scalar) : gmap string scalar :=
  match provider_list with
  | [] => start_points
  | provider :: rest =>
      let v := match getfirst req_args (FORMAT_STRING (get_name provider)) with
               | Some s => SStr s
               | None => SInt 0
               end in
      parse_args_loop req_args rest (<[get_name provider := v]> start_points)
  end.

Definition parse_args (req_args : gmap string arg) (provider_list : list provider)
    : gmap string scalar :=
  parse_args_loop req_args provider_list ∅.

(** The [try: int(prev_start_points.get(backend_name, 0)) except: 0] of
    [format]. *)
Definition prev_start (prev_start_points : gmap string scalar) (backend_name : string) : Z :=
  match py_int (default (SInt 0) (prev_start_points !! backend_name)) with
  | Some z => z
  | None => 0
  end.

(** One iteration of the loop of [format].  Provider names are strings;
    a result tagged with a number is outside this embedding. *)
Definition format_step (h : heap) (prev_start_points : gmap string scalar)
    (start_points : gmap string Z) (result : loc) : exc (gmap string Z) :=
  v ← getitem (h result) "backend_name";
  match v with
  | VStr backend_name =>
      let start_points1 :=
        match start_points !! backend_name with
        | Some _ => start_points
        | None => <[backend_name := prev_start prev_start_points backend_name]> start_points
        end in
      n ← getitem start_points1 backend_name;
      mret (<[backend_name := n + 1]> start_points1)
  | VNum _ => inl Unmodelled
  end.

Fixpoint format_loop (h : heap) (prev_start_points : gmap string scalar)
    (results : list loc) (start_points : gmap string Z) : exc (gmap string Z) :=
  match results with
  | [] => mret start_points
  | result :: rest =>
      start_points' ← format_step h prev_start_points start_points result;
      format_loop h prev_start_points rest start_points'
  end.

Definition entry (nv : string * Z) : json :=
  JObj [("name", JStr (FORMAT_STRING nv.1)); ("value", JInt nv.2)].

(** [StartPoints.format(results, prev_start_points)]; [dumps] is
    [simplejson.dumps] and [map_to_list] the iteration over the dict. *)
Definition format (dumps : json -> string) (h : heap) (results : list loc)
    (prev_start_points : gmap string scalar) : exc string :=
  start_points ← format_loop h prev_start_points results ∅;
  mret (dumps (JList (entry <$> map_to_list start_points))).

End StartPoints.

(** ** AdvancedSearchPlugin *)

Module AdvancedSearchPlugin.

Definition SOURCE_FILTERS : list string := ["wiki"; "ticket"].
Definition DEFAULT_PER_PAGE : Z := 10.

(** *** _merge_results *)

(** [for result_dict in results: result_dict['backend_name'] = backend_name] *)
Fixpoint tag_results (backend_name : string) (results : list loc) (h : heap) : heap :=
  match results with
  | [] => h
  | result_dict :: rest =>
      tag_results backend_name rest
        (upd h result_dict (<["backend_name" := VStr backend_name]> (h result_dict)))
  end.

(** The loop over [result_map.iteritems()], given the items in
    iteration order. *)
Fixpoint merge_loop (items : list (string * list loc)) (all_results : list loc)
    (h : heap) : list loc * heap :=
  match items with
  | [] => (all_results, h)
  | (backend_name, results) :: rest =>
      merge_loop rest (all_results ++ results) (tag_results backend_name results h)
  end.

(** [key=itemgetter('score')]: the keys are computed before sorting. *)
Fixpoint decorate (h : heap) (l : list loc) : exc (list (value * loc)) :=
  match l with
  | [] => mret []
  | x :: rest =>
      k ← getitem (h x) "score";
      ks ← decorate h rest;
      mret ((k, x) :: ks)
  end.

Definition merge_items (items : list (string * list loc)) (per_page : Z) (h : heap)
    : exc (list loc) * heap :=
  let '(all_results, h') := merge_loop items [] h in
  (decorated ← decorate h' all_results;
   mret (slice_to (map snd (sort_decorated py_lt true decorated)) per_page),
   h').

Definition _merge_results (result_map : gmap string (list loc)) (per_page : Z) (h : heap)
    : exc (list loc) * heap :=
  merge_items (map_to_list result_map) per_page h.

(** *** _add_href_to_results

    [href_wiki] is [self.env.href.wiki]. *)
Fixpoint _add_href_to_results (href_wiki : value -> string) (results : list loc)
    (h : heap) : exc unit * heap :=
  match results with
  | [] => (mret tt, h)
  | result :: rest =>
      match getitem (h result) "source" with
      | inl e => (inl e, h)
      | inr source =>
          if py_eq_str source "wiki" then
            match getitem (h result) "title" with
            | inl e => (inl e, h)
            | inr title =>
                _add_href_to_results href_wiki rest
                  (upd h result (<["href" := VStr (href_wiki title)]> (h result)))
            end
          else _add_href_to_results href_wiki rest h
      end
  end.

(** *** _get_filter_dicts *)
Definition _get_filter_dicts (filter_list : list string) (req_args : gmap string arg)
    : list (string * option arg) :=
  (fun filter => (filter, req_args !! filter)) <$> filter_list.

(** *** _send_response *)

Definition dval_truth (v : dval) : bool :=
  match v with
  | DNone => false
  | DInt z => negb (z =? 0)%Z
  | DStr s => negb (String.eqb s "")
  | DList l => negb (Nat.eqb (length l) 0)
  | DStartPoints m => negb (Nat.eqb (size m) 0)
  | DFilters l => negb (Nat.eqb (length l) 0)
  | DResults p => pag_nonzero p
  end.

Definition dval_len (v : dval) : exc Z :=
  match v with
  | DNone | DInt _ => inl TypeError
  | DStr s => mret (Z.of_nat (String.length s))
  | DList l => mret (Z.of_nat (length l))
  | DStartPoints m => mret (Z.of_nat (size m))
  | DFilters l => mret (Z.of_nat (length l))
  | DResults p => mret (pag_len p)
  end.

Definition _send_response (providers : list provider) (data : gmap string dval)
    : exc (string * gmap string dval) * list chrome :=
  let w1 := if Nat.eqb (length providers) 0 then
      [AddWarning "No advanced search providers found. You must register a search backend."]
    else [] in
  let no_results :=
    match data !! "results" with
    | Some v => if dval_truth v then n ← dval_len v; mret (n =? 0)%Z else mret false
    | None => mret false
    end in
  match no_results with
  | inl e => (inl e, w1)
  | inr b =>
      (mret ("advsearch.html", data),
       (w1 ++ (if b then [AddWarning "No results."] else [])
           ++ [AddStylesheet "common/css/search.css";
               AddStylesheet "advsearch/css/advsearch.css";
               AddScript "advsearch/js/advsearch.js"])%list)
  end.

(** *** Navigation, permissions and request matching *)

(** [get_active_navigation_item] *)
Definition get_active_navigation_item : string := "advsearch".

(** [get_permission_actions] *)
Definition get_permission_actions : list string := ["SEARCH_VIEW"].


(** The pattern ['/advsearch?']: nine literal characters and an optional
    [h]. *)
Definition advsearch_pattern : list re_item :=
  [ReChar "/"; ReChar "a"; ReChar "d"; ReChar "v"; ReChar "s"; ReChar "e";
   ReChar "a"; ReChar "r"; ReChar "c"; ReOpt "h"]%char.

(** [match_request], on [req.path_info]. *)
Definition match_request (path_info : string) : bool :=
  re_match advsearch_pattern path_info.

(** *** process_request *)

(** What a call of [process_request] leaves behind: the returned
    template and data (or the exception), the [query_backend] calls in
    order with the criteria each received, the chrome calls, and the
    heap. *)
Record reply := {
  returned : exc (string * gmap string dval);
  backend_calls : list (string * gmap string dval);
  chrome_calls : list chrome;
  heap_after : heap
}.

(** Lines 128-132. *)
Definition request_per_page (req_args : gmap string arg) : Z :=
  match py_int (match getfirst req_args "per_page" with
                | Some s => SStr s
                | None => SInt DEFAULT_PER_PAGE
                end) with
  | Some per_page => per_page
  | None => DEFAULT_PER_PAGE
  end.

(** Lines 134-137. *)
Definition request_page (req_args : gmap string arg) : Z :=
  match py_int (match getfirst req_args "page" with
                | Some s => SStr s
                | None => SInt 1
                end) with
  | Some page => page
  | None => 1
  end.

(** Lines 139-146. *)
Definition initial_data (providers : list provider) (req_args : gmap string arg)
    : gmap string dval :=
  <["source" := DList (getlist req_args "source_filters")]>
  (<["author" := DList (List.filter (fun auth => negb (String.eqb auth ""))
                                    (getlist req_args "author"))]>
  (<["date_start" := dval_of_first (getfirst req_args "date_start")]>
  (<["date_end" := dval_of_first (getfirst req_args "date_end")]>
  (<["q" := dval_of_arg (req_args !! "q")]>
  (<["start_points" := DStartPoints (StartPoints.parse_args req_args providers)]> ∅))))).

(** [not query] *)
Definition query_is_empty (query : option arg) : bool :=
  match query with
  | None => true
  | Some (AStr s) => String.eqb s ""
  | Some (AList _ _) => false
  end.

(** Lines 152-157: the loop over [self.providers].  [data] is the one
    dict object every backend is handed. *)
Fixpoint query_providers (providers : list provider) (data : gmap string dval)
    (h : heap) (total_count : Z) (result_map : gmap string (list loc))
    (calls : list (string * gmap string dval))
    : gmap string dval * heap * Z * gmap string (list loc)
      * list (string * gmap string dval) :=
  match providers with
  | [] => (data, h, total_count, result_map, calls)
  | provider :: rest =>
      let '((result_count, result_list), (data', h')) :=
        query_backend provider data h in
      query_providers rest data' h' (total_count + result_count)
        (<[get_name provider := result_list]> result_map)
        (calls ++ [(get_name provider, data)])
  end.

Section Trac.
(** [self.env.href.wiki], the [Paginator] constructor and
    [simplejson.dumps]. *)
Variable href_wiki : value -> string.
Variable Paginator : list loc -> Z -> Z -> Z -> exc paginator.
Variable dumps : json -> string.

(** Lines 174-184, once [data['results']] is set. *)
Definition finish (providers : list provider) (data : gmap string dval)
    (results : list loc) (pg : paginator) (h : heap)
    : exc (string * gmap string dval) * list chrome :=
  let next :=
    if has_next_page pg then
      prev ← getitem data "start_points";
      (* any object but a dict makes [.get] raise inside the bare
         [try], which leaves every previous start at 0 *)
      start_points ← StartPoints.format dumps h results
        (match prev with DStartPoints m => m | _ => ∅ end);
      mret [AddLink "next" ("javascript:next_page(" ++ start_points ++ ")")%string "Next Page"]
    else mret [] in
  match next with
  | inl e => (inl e, [])
  | inr links =>
      let links' :=
        (links ++ (if has_previous_page pg
                   then [AddLink "prev" "javascript:history.go(-1)" "Previous Page"]
                   else []))%list in
      let '(r, log) := _send_response providers data in
      (r, (links' ++ log)%list)
  end.

Definition process_request (providers : list provider) (req : request) (h : heap)
    : reply :=
  if negb (bool_decide ("SEARCH_VIEW" ∈ perm req)) then
    {| returned := inl (PermissionError "SEARCH_VIEW");
       backend_calls := []; chrome_calls := []; heap_after := h |}
  else
  let query := args req !! "q" in
  let per_page := request_per_page (args req) in
  let page := request_page (args req) in
  let data := initial_data providers (args req) in
  if query_is_empty query then
    let '(r, log) := _send_response providers data in
    {| returned := r; backend_calls := []; chrome_calls := log; heap_after := h |}
  else
  let '(data, h, total_count, result_map, calls) :=
    query_providers providers data h 0 ∅ [] in
  let data := <["source_filters" :=
                  DFilters (_get_filter_dicts SOURCE_FILTERS (args req))]> data in
  let data := <["per_page" := DInt per_page]> data in
  let data := <["page" := DInt page]> data in
  let '(merged, h) := _merge_results result_map per_page h in
  match merged with
  | inl e => {| returned := inl e; backend_calls := calls;
                chrome_calls := []; heap_after := h |}
  | inr results =>
      let '(hrefs, h) := _add_href_to_results href_wiki results h in
      match hrefs with
      | inl e => {| returned := inl e; backend_calls := calls;
                    chrome_calls := []; heap_after := h |}
      | inr _ =>
          match Paginator results (page - 1) per_page total_count with
          | inl e => {| returned := inl e; backend_calls := calls;
                        chrome_calls := []; heap_after := h |}
          | inr pg =>
              let data := <["results" := DResults pg]> data in
              let '(r, log) := finish providers data results pg h in
              {| returned := r; backend_calls := calls;
                 chrome_calls := log; heap_after := h |}
          end
      end
  end.
End Trac.

End AdvancedSearchPlugin.

(** ** Reference definitions, in the words of the specification *)

(** Does the result at [l] carry the tag of provider [name]? *)
Definition tagged_with (h : heap) (name : string) (l : loc) : bool :=
  match h l !! "backend_name" with
  | Some (VStr n) => String.eqb n name
  | _ => false
  end.

(** The count of a provider's records appearing in the page. *)
Definition count_of (h : heap) (name : string) (results : list loc) : Z :=
  Z.of_nat (length (List.filter (tagged_with h name) results)).

(** Every record of the page carries a provider name. *)
Definition all_tagged (h : heap) (results : list loc) : Prop :=
  Forall (fun l => exists n, h l !! "backend_name" = Some (VStr n)) results.

(** The updated offset of a provider, as the specification words it. *)
Definition updated_offset (h : heap) (prev : gmap string scalar)
    (results : list loc) (name : string) : option Z :=
  if (0 <? count_of h name results)%Z
  then Some (StartPoints.prev_start prev name + count_of h name results)
  else None.

Section StableSortSpec.
Context {A K : Type} (key : A -> K) (lt : K -> K -> bool).

(** [x] stood before every element of [sorted] in the input: it goes
    after the elements with a greater key and before all others. *)
Fixpoint insert_desc (x : A) (sorted : list A) : list A :=
  match sorted with
  | [] => [x]
  | y :: rest =>
      if lt (key x) (key y) then y :: insert_desc x rest
      else x :: y :: rest
  end.

(** Sort by key, descending, ties in input order. *)
Fixpoint stable_sort_desc (l : list A) : list A :=
  match l with
  | [] => []
  | x :: rest => insert_desc x (stable_sort_desc rest)
  end.

(** No element is followed by one with a greater key. *)
Definition descending (l : list A) : Prop :=
  StronglySorted (fun a b => lt (key a) (key b) = false) l.

(** Keys that compare equal. *)
Definition same_key (k k' : K) : bool := negb (lt k k') && negb (lt k' k).

(** The elements of each key are in the same order in [l'] as in [l]. *)
Definition stable (l l' : list A) : Prop :=
  forall k, List.filter (fun a => same_key k (key a)) l'
          = List.filter (fun a => same_key k (key a)) l.
End StableSortSpec.

(** No decorated item is followed by one with a smaller key. *)
Definition ascending {A K : Type} (lt : K -> K -> bool) (l : list (K * A)) : Prop :=
  StronglySorted (fun a b => lt (fst b) (fst a) = false) l.

(** [result_dict['backend_name'] = backend_name], on the dict's value. *)
Definition tag (backend_name : string) (r : gmap string value) : gmap string value :=
  <["backend_name" := VStr backend_name]> r.

(** The score of a record that has one. *)
Definition score_of (r : gmap string value) : value :=
  default (VNum 0) (r !! "score").

(** The merge as the specification words it: tag every record with its
    provider, concatenate, sort by score descending with ties in input
    order, keep the first [per_page] records (none when [per_page] is not
    positive). *)
Definition merge_reference (result_lists : list (string * list (gmap string value)))
    (per_page : Z) : list (gmap string value) :=
  firstn (Z.to_nat per_page)
    (stable_sort_desc score_of py_lt
       (concat (map (fun nrs => map (tag nrs.1) nrs.2) result_lists))).

(** The records behind the references of each provider's list. *)
Definition deref (h : heap) (items : list (string * list loc))
    : list (string * list (gmap string value)) :=
  map (fun nrs => (nrs.1, map h nrs.2)) items.

(** No dict object is in the lists of two different providers. *)
Definition unshared (items : list (string * list loc)) : Prop :=
  forall n1 rs1 n2 rs2 l,
    (n1, rs1) ∈ items -> (n2, rs2) ∈ items -> l ∈ rs1 -> l ∈ rs2 -> n1 = n2.

(** Every result carries a score. *)
Definition all_scored (h : heap) (items : list (string * list loc)) : Prop :=
  forall n rs l, (n, rs) ∈ items -> l ∈ rs -> is_Some (h l !! "score").

(** The provider whose tag a dict ends up with: the last one, in
    iteration order, whose list holds it. *)
Fixpoint last_owner (items : list (string * list loc)) (l : loc) : option string :=
  match items with
  | [] => None
  | (name, results) :: rest =>
      match last_owner rest l with
      | Some name' => Some name'
      | None => if bool_decide (l ∈ results) then Some name else None
      end
  end.

(** A record whose [source] is ['wiki']. *)
Definition is_wiki (r : gmap string value) : bool :=
  match r !! "source" with
  | Some source => py_eq_str source "wiki"
  | None => false
  end.

(** A record on which link resolution does not raise: it has a source,
    and a title when the source is ['wiki']. *)
Definition resolvable (r : gmap string value) : Prop :=
  is_Some (r !! "source") /\ (is_wiki r = true -> is_Some (r !! "title")).

(** The record after link resolution. *)
Definition resolved (href_wiki : value -> string) (r : gmap string value)
    : gmap string value :=
  if is_wiki r then
    match r !! "title" with
    | Some title => <["href" := VStr (href_wiki title)]> r
    | None => r
    end
  else r.

(** Decimal numerals: the character of a digit, the string of a digit
    list, and the number it denotes. *)
Definition digit_char (d : Z) : ascii := ascii_of_N (Z.to_N (48 + d)).

Fixpoint digits_string (ds : list Z) : string :=
  match ds with
  | [] => EmptyString
  | d :: rest => String (digit_char d) (digits_string rest)
  end.

Definition digits_value (ds : list Z) : Z :=
  fold_left (fun acc d => 10 * acc + d) ds 0.

(** By how much the start points in [start_points] lie beyond the
    previous ones, summed over the providers. *)
Definition total_advance (prev : gmap string scalar) (start_points : gmap string Z) : Z :=
  map_fold (fun name v acc => (v - StartPoints.prev_start prev name) + acc) 0
    start_points.

(** The number of results the providers returned. *)
Definition total_results (items : list (string * list loc)) : Z :=
  Z.of_nat (length (concat (map snd items))).

(** The names of the registered providers. *)
Definition names (providers : list provider) : list string :=
  get_name <$> providers.

(** The raw start point of a provider as the request carries it. *)
Definition incoming (req_args : gmap string arg) (name : string) : scalar :=
  match getfirst req_args (StartPoints.FORMAT_STRING name) with
  | Some s => SStr s
  | None => SInt 0
  end.

(** ** Example data *)

Definition empty_heap : heap := fun _ => ∅.

Definition record (title source : string) (score : Q) : gmap string value :=
  <["title" := VStr title]>
  (<["source" := VStr source]>
  (<["score" := VNum score]>
  (<["summary" := VStr "..."]>
  (<["date" := VStr "2011-04-20 12:34:00"]>
  (<["author" := VStr "admin"]> ∅))))).

(** Three untagged results as two backends return them. *)
Definition fresh_heap : heap :=
  upd (upd (upd empty_heap 0%nat (record "TracHelp" "wiki" (9 # 10)))
         1%nat (record "#12" "ticket" (1 # 2)))
    2%nat (record "WikiStart" "wiki" (1 # 2)).

(** The same results after provider [a] tagged 0 and 2 and provider [b]
    tagged 1. *)
Definition tagged_heap : heap :=
  upd (upd (upd empty_heap
         0%nat (<["backend_name" := VStr "a"]> (record "TracHelp" "wiki" (9 # 10))))
         1%nat (<["backend_name" := VStr "b"]> (record "#12" "ticket" (1 # 2))))
    2%nat (<["backend_name" := VStr "a"]> (record "WikiStart" "wiki" (1 # 2))).

Definition example_prev : gmap string scalar :=
  <["a" := SStr "3"]> (<["b" := SStr "5"]> ∅).

(** Provider [a] returned the dicts 0 and 2. *)
Definition one_backend : gmap string (list loc) := {["a" := [0; 2]%nat]}.

(** Providers [a] and [b] both returned the dict object 0. *)
Definition shared_dict : gmap string (list loc) :=
  <["a" := [0%nat]]> {["b" := [0%nat]]}.

(** Stand-ins for the Trac functions, to run the handler on examples. *)
Definition example_href (title : value) : string :=
  match title with
  | VStr t => ("/wiki/" ++ t)%string
  | VNum _ => "/wiki"
  end.

Definition example_paginator (results : list loc) (page max_per_page num_items : Z)
    : exc paginator :=
  inr {| items := results;
         has_next_page := ((page + 1) * max_per_page <? num_items)%Z;
         has_previous_page := (0 <? page)%Z;
         pag_nonzero := negb (Nat.eqb (length results) 0);
         pag_len := Z.of_nat (length results) |}.

Definition example_dumps (j : json) : string := "[...]".

(** A backend that finds nothing and leaves the criteria alone. *)
Definition quiet_backend (name : string) : provider :=
  {| get_name := name;
     query_backend := fun data h => ((0, []), (data, h)) |}.

(** [/advsearch?q=trac&page=2&per_page=5] from a user who may search. *)
Definition search_request : request :=
  {| args := <["q" := AStr "trac"]>
             (<["page" := AStr "2"]> (<["per_page" := AStr "5"]> ∅));
     perm := {["SEARCH_VIEW"]} |}.

(** [/advsearch?q=] from the same user. *)
Definition blank_request : request :=
  {| args := <["q" := AStr ""]> ∅; perm := {["SEARCH_VIEW"]} |}.

(** A backend that reports twenty matches and returns the dicts 0 and 2. *)
Definition busy_backend : provider :=
  {| get_name := "a";
     query_backend := fun data h => ((20, [0; 2]%nat), (data, h)) |}.

(** * Theorems *)

(** ** Python builtins on examples *)

Example int_of_string_plain : int_of_string "42" = Some 42.
Proof. reflexivity. Qed.
Example int_of_string_padded : int_of_string "  -7 " = Some (-7).
Proof. reflexivity. Qed.
Example int_of_string_word : int_of_string "ten" = None.
Proof. reflexivity. Qed.
Example int_of_string_empty : int_of_string "" = None.
Proof. reflexivity. Qed.
Example int_of_string_float : int_of_string "1.5" = None.
Proof. reflexivity. Qed.
Example slice_to_negative : slice_to [1; 2; 3]%nat (-1) = [1; 2]%nat.
Proof. reflexivity. Qed.

Lemma digit_cases d :
  0 <= d <= 9 ->
  d = 0 \/ d = 1 \/ d = 2 \/ d = 3 \/ d = 4 \/ d = 5 \/ d = 6 \/ d = 7
  \/ d = 8 \/ d = 9.
Proof. lia. Qed.

Lemma digit_of_char d : 0 <= d <= 9 -> digit_of (digit_char d) = Some d.
Proof.
  intros H.
  by destruct (digit_cases d H) as [-> | Hd];
    repeat (destruct Hd as [-> | Hd] || subst d).
Qed.

Lemma digits_then_space_digits ds seen acc :
  Forall (fun d => 0 <= d <= 9) ds ->
  digits_then_space (digits_string ds) seen acc =
  match ds with
  | [] => if seen then Some acc else None
  | _ => Some (fold_left (fun acc d => 10 * acc + d) ds acc)
  end.
Proof.
  intros Hds. revert seen acc.
  induction Hds as [|d ds Hd _ IH]; intros seen acc; [done |].
  cbn [digits_string digits_then_space]. rewrite digit_of_char, IH by done.
  by destruct ds.
Qed.

(** [int] reads a decimal numeral as the number it denotes, and with a
    leading minus as its opposite. *)
Lemma int_of_string_digits d ds :
  Forall (fun d => 0 <= d <= 9) (d :: ds) ->
  int_of_string (digits_string (d :: ds)) = Some (digits_value (d :: ds))
  /\ int_of_string (String "-" (digits_string (d :: ds)))
      = Some (- digits_value (d :: ds)).
Proof.
  intros Hds. pose proof (digits_then_space_digits (d :: ds) false 0 Hds) as Hrun.
  inversion Hds as [|? ? Hd _]; subst.
  unfold int_of_string. split.
  - destruct (digit_cases d Hd) as [-> | Hc];
      repeat (destruct Hc as [-> | Hc] || subst d); exact Hrun.
  - change (lstrip (String "-" (digits_string (d :: ds))))
      with (String "-" (digits_string (d :: ds))).
    cbv iota beta. by rewrite Hrun.
Qed.

(** ** StartPoints.parse_args *)

Lemma parse_args_loop_lookup req_args providers start_points name :
  StartPoints.parse_args_loop req_args providers start_points !! name =
  if bool_decide (name ∈ names providers) then Some (incoming req_args name)
  else start_points !! name.
Proof.
  unfold names. revert start_points.
  induction providers as [|p ps IH]; intros sp.
  - done.
  - cbn [StartPoints.parse_args_loop]. rewrite IH, fmap_cons.
    destruct (decide (name = get_name p)) as [-> | Hne].
    + rewrite (bool_decide_eq_true_2 (_ ∈ _ :: _)) by left.
      case_bool_decide; [done | by rewrite lookup_insert_eq].
    + rewrite lookup_insert_ne by done.
      rewrite (bool_decide_ext (name ∈ get_name p :: (get_name <$> ps))
                 (name ∈ get_name <$> ps)); [done |].
      rewrite elem_of_cons. split; [by intros [? | ?] | by right].
Qed.

Lemma parse_args_lookup req_args providers name :
  StartPoints.parse_args req_args providers !! name =
  if bool_decide (name ∈ names providers) then Some (incoming req_args name)
  else None.
Proof.
  unfold StartPoints.parse_args. rewrite parse_args_loop_lookup.
  by rewrite lookup_empty.
Qed.

(** C10: the keys of [StartPoints.parse_args] are exactly the names of
    the providers in the list.  A provider whose request parameter is
    absent gets the entry 0, and a name that is not a provider's gets no
    entry, whatever the request contains. *)
Theorem parse_args_keys (req_args : gmap string arg) (providers : list provider) :
  dom (StartPoints.parse_args req_args providers) = list_to_set (names providers)
  /\ (forall p, p ∈ providers ->
        req_args !! StartPoints.FORMAT_STRING (get_name p) = None ->
        StartPoints.parse_args req_args providers !! get_name p = Some (SInt 0))
  /\ (forall name, name ∉ names providers ->
        StartPoints.parse_args req_args providers !! name = None).
Proof.
  split; [|split].
  - apply set_eq. intros name.
    rewrite elem_of_dom, elem_of_list_to_set, parse_args_lookup.
    case_bool_decide; [naive_solver |].
    split; [by intros [? ?] | done].
  - intros p Hp Habs. rewrite parse_args_lookup.
    rewrite bool_decide_eq_true_2.
    + unfold incoming, getfirst. by rewrite Habs.
    + unfold names. by apply list_elem_of_fmap_2.
  - intros name Hn. rewrite parse_args_lookup.
    by rewrite bool_decide_eq_false_2.
Qed.


(** ** StartPoints.format *)

Lemma count_of_cons h name l results :
  count_of h name (l :: results) =
  (if tagged_with h name l then 1 else 0) + count_of h name results.
Proof.
  unfold count_of. simpl. destruct (tagged_with h name l); simpl; lia.
Qed.

Lemma count_of_nonneg h name results : 0 <= count_of h name results.
Proof. unfold count_of. lia. Qed.

(** The loop of [format], started from any dict: present keys advance by
    the count, absent keys start from the previous start point. *)
Lemma format_loop_lookup h prev results :
  all_tagged h results ->
  forall start_points, exists start_points',
    StartPoints.format_loop h prev results start_points = inr start_points'
    /\ forall name,
        start_points' !! name =
        match start_points !! name with
        | Some v => Some (v + count_of h name results)
        | None => updated_offset h prev results name
        end.
Proof.
  unfold updated_offset.
  induction 1 as [|l results [n Hn] _ IH]; intros sp.
  - exists sp. split; [done |]. intros name. unfold count_of. simpl.
    destruct (sp !! name); [f_equal; lia | done].
  - cbn [StartPoints.format_loop]. unfold StartPoints.format_step, getitem.
    rewrite Hn. cbn [mbind exc_bind].
    set (sp1 := match sp !! n with
                | Some _ => sp
                | None => <[n := StartPoints.prev_start prev n]> sp
                end).
    assert (exists v0, sp1 !! n = Some v0 /\
              v0 = default (StartPoints.prev_start prev n) (sp !! n))
      as (v0 & Hv0 & Hv0d).
    { subst sp1. destruct (sp !! n) as [v|] eqn:E.
      - by exists v.
      - eexists. by rewrite lookup_insert_eq. }
    rewrite Hv0. cbn [mret exc_ret].
    destruct (IH (<[n := v0 + 1]> sp1)) as (sp' & Hrun & Hsp').
    exists sp'. split; [done |]. intros name. rewrite Hsp', count_of_cons.
    assert (tagged_with h name l = String.eqb n name) as ->
      by (unfold tagged_with; by rewrite Hn).
    destruct (String.eqb_spec n name) as [-> | Hne].
    + rewrite lookup_insert_eq.
      pose proof (count_of_nonneg h name results).
      destruct (sp !! name) as [v|]; simpl in Hv0d; subst v0.
      * f_equal. lia.
      * destruct (Z.ltb_spec 0 (1 + count_of h name results)); [|lia].
        f_equal. lia.
    + rewrite lookup_insert_ne by done.
      replace (sp1 !! name) with (sp !! name).
      2:{ subst sp1. destruct (sp !! n); [done |]. by rewrite lookup_insert_ne. }
      done.
Qed.

(** The loop of [format] as [format] runs it, from the empty dict. *)
Lemma format_loop_from_empty h prev results :
  all_tagged h results ->
  exists start_points,
    StartPoints.format_loop h prev results ∅ = inr start_points
    /\ forall name, start_points !! name = updated_offset h prev results name.
Proof.
  intros Htag.
  destruct (format_loop_lookup h prev results Htag ∅) as (sp & Hrun & Hsp).
  exists sp. split; [done |]. intros name.
  by rewrite Hsp, lookup_empty.
Qed.


Lemma all_tagged_filter h f results :
  all_tagged h results -> all_tagged h (List.filter f results).
Proof.
  unfold all_tagged. rewrite !List.Forall_forall.
  intros H l [Hl _]%List.filter_In. by apply H.
Qed.

Lemma count_of_filter h name results :
  count_of h name (List.filter (tagged_with h name) results) =
  count_of h name results.
Proof.
  unfold count_of. f_equal. f_equal.
  induction results as [|l results IH]; simpl; [done |].
  destruct (tagged_with h name l) eqn:E; simpl; rewrite ?E; by rewrite IH.
Qed.

(** C3, as the code has it: a provider's offset advances by the number of
    its own records on the page and by nothing else (the other providers'
    records can be dropped from the page without changing it), and a
    provider with no record on the page gets no entry in the recomputed
    start points. *)
Theorem format_advances_by_own_records (h : heap) (prev : gmap string scalar)
    (results : list loc) (name : string) :
  all_tagged h results ->
  exists start_points own,
    StartPoints.format_loop h prev results ∅ = inr start_points
    /\ StartPoints.format_loop h prev
         (List.filter (tagged_with h name) results) ∅ = inr own
    /\ start_points !! name = own !! name
    /\ (0 < count_of h name results ->
        start_points !! name =
        Some (StartPoints.prev_start prev name + count_of h name results))
    /\ (count_of h name results = 0 -> start_points !! name = None).
Proof.
  intros Htag.
  destruct (format_loop_from_empty h prev results Htag) as (sp & Hrun & Hsp).
  destruct (format_loop_from_empty h prev _
              (all_tagged_filter h (tagged_with h name) results Htag))
    as (own & Hown & Hspo).
  exists sp, own. split; [done |]. split; [done |].
  rewrite Hsp, Hspo. unfold updated_offset. rewrite count_of_filter.
  split; [done |].
  split; intros Hc.
  - by destruct (Z.ltb_spec 0 (count_of h name results)); [|lia].
  - by rewrite Hc.
Qed.


Lemma tagged_heap_all_tagged : all_tagged tagged_heap [0; 1; 2]%nat.
Proof.
  repeat constructor; [exists "a" | exists "b" | exists "a"]; reflexivity.
Defined.



(** C3 as stated fails: provider [b] has no record on the page, its prior
    offset is 5, and the recomputed start points have no entry for it. *)
Lemma format_drops_absent_provider :
  count_of tagged_heap "b" [0; 2]%nat = 0 /\
  StartPoints.prev_start example_prev "b" = 5 /\
  ~ exists start_points,
      StartPoints.format_loop tagged_heap example_prev [0; 2]%nat ∅
        = inr start_points
      /\ start_points !! "b" = Some 5.
Proof.
  split; [reflexivity |]. split; [reflexivity |].
  intros (sp & Hrun & Hb).
  vm_compute in Hrun. injection Hrun as <-. vm_compute in Hb. discriminate.
Qed.

Lemma format_advances_by_own_records_witness :
  all_tagged tagged_heap [0; 1; 2]%nat /\
  exists start_points own,
    StartPoints.format_loop tagged_heap example_prev [0; 1; 2]%nat ∅
      = inr start_points
    /\ StartPoints.format_loop tagged_heap example_prev [0; 2]%nat ∅ = inr own
    /\ start_points !! "a" = own !! "a"
    /\ start_points !! "a" = Some 5.
Proof.
  split; [exact tagged_heap_all_tagged |].
  destruct (format_advances_by_own_records tagged_heap example_prev
              [0; 1; 2]%nat "a" tagged_heap_all_tagged)
    as (sp & own & Hrun & Hown & Heq & Hpos & _).
  exists sp, own. split; [exact Hrun |]. split; [exact Hown |].
  split; [exact Heq |]. apply Hpos. reflexivity.
Defined.


(** ** Sorting *)

Section SortFacts.
Context {A K : Type} (key : A -> K) (lt : K -> K -> bool).
Hypothesis lt_irrefl : forall a, lt a a = false.
Hypothesis lt_trans : forall a b c, lt a b = true -> lt b c = true -> lt a c = true.
Hypothesis lt_cotrans : forall a b c, lt a c = true -> lt a b = true \/ lt b c = true.

Lemma lt_asym a b : lt a b = true -> lt b a = false.
Proof.
  intros Hab. destruct (lt b a) eqn:Hba; [|done].
  by rewrite <- (lt_irrefl a), (lt_trans a b a).
Qed.

Lemma insert_desc_elements x l : insert_desc key lt x l ≡ₚ x :: l.
Proof.
  induction l as [|y l IH]; simpl; [done |].
  destruct (lt (key x) (key y)); [|done].
  rewrite IH. apply Permutation_swap.
Qed.

Lemma stable_sort_desc_perm l : stable_sort_desc key lt l ≡ₚ l.
Proof.
  induction l as [|x l IH]; simpl; [done |].
  by rewrite insert_desc_elements, IH.
Qed.

Lemma insert_desc_descending x l :
  descending key lt l -> descending key lt (insert_desc key lt x l).
Proof.
  unfold descending. induction 1 as [|y l Hs IH Hy]; simpl.
  - repeat constructor.
  - destruct (lt (key x) (key y)) eqn:Hxy.
    + constructor; [done |].
      rewrite insert_desc_elements. constructor; [by apply lt_asym | done].
    + constructor; [by constructor |].
      constructor; [done |].
      eapply List.Forall_impl; [|exact Hy]. intros b Hyb; simpl in Hyb.
      destruct (lt (key x) (key b)) eqn:Hxb; [|done].
      destruct (lt_cotrans _ (key y) _ Hxb); congruence.
Qed.

Lemma stable_sort_desc_descending l : descending key lt (stable_sort_desc key lt l).
Proof.
  induction l; simpl; [constructor | by apply insert_desc_descending].
Qed.

Lemma same_key_lt k a b :
  same_key lt k a = true -> same_key lt k b = true -> lt a b = false.
Proof.
  unfold same_key. intros [Hka Hak]%andb_prop [Hkb Hbk]%andb_prop.
  destruct (lt a b) eqn:Hab; [|done].
  destruct (lt_cotrans _ k _ Hab) as [H | H]; rewrite H in *; done.
Qed.

Lemma insert_desc_filter k x l :
  List.filter (fun a => same_key lt k (key a)) (insert_desc key lt x l) =
  List.filter (fun a => same_key lt k (key a)) (x :: l).
Proof.
  induction l as [|y l IH]; [done |].
  cbn [insert_desc]. destruct (lt (key x) (key y)) eqn:Hxy; [|done].
  cbn [List.filter] in *. rewrite IH.
  destruct (same_key lt k (key x)) eqn:Hx; [|done].
  destruct (same_key lt k (key y)) eqn:Hy; [|done].
  by rewrite (same_key_lt k _ _ Hx Hy) in Hxy.
Qed.

Lemma stable_sort_desc_stable l : stable key lt l (stable_sort_desc key lt l).
Proof.
  intros k. induction l as [|x l IH]; [done |].
  cbn [stable_sort_desc]. rewrite insert_desc_filter.
  cbn [List.filter]. by rewrite IH.
Qed.

Lemma insert_desc_snoc x y l :
  lt (key x) (key y) = false ->
  insert_desc key lt x (l ++ [y]) = insert_desc key lt x l ++ [y].
Proof.
  intros Hxy. induction l as [|z l IH]; simpl; [by rewrite Hxy |].
  destruct (lt (key x) (key z)); [by rewrite IH | done].
Qed.

Lemma insert_desc_last x l :
  Forall (fun z => lt (key x) (key z) = true) l ->
  insert_desc key lt x l = l ++ [x].
Proof.
  induction 1 as [|z l Hz _ IH]; simpl; [done |]. by rewrite Hz, IH.
Qed.
End SortFacts.

Section ForwardSort.
Context {A K : Type} (lt : K -> K -> bool).
Hypothesis lt_irrefl : forall a, lt a a = false.
Hypothesis lt_trans : forall a b c, lt a b = true -> lt b c = true -> lt a c = true.
Hypothesis lt_cotrans : forall a b c, lt a c = true -> lt a b = true \/ lt b c = true.

Implicit Types (x : K * A) (l t : list (K * A)).

Lemma insert_right_elements x t : insert_right lt x t ≡ₚ x :: t.
Proof.
  induction t as [|y t IH]; simpl; [done |].
  destruct (lt (fst x) (fst y)); [done |].
  rewrite IH. apply Permutation_swap.
Qed.

Lemma insert_right_ascending x t :
  ascending lt t -> ascending lt (insert_right lt x t).
Proof.
  unfold ascending. induction 1 as [|y t Hs IH Hy]; simpl.
  - repeat constructor.
  - destruct (lt (fst x) (fst y)) eqn:Hxy.
    + constructor; [by constructor |].
      constructor; [by apply (lt_asym lt lt_irrefl lt_trans) |].
      eapply List.Forall_impl; [|exact Hy]. intros b Hby; simpl in Hby.
      destruct (lt (fst b) (fst x)) eqn:Hbx; [|done].
      by rewrite (lt_trans _ _ _ Hbx Hxy) in Hby.
    + constructor; [done |].
      rewrite insert_right_elements. by constructor.
Qed.

Lemma sort_forward_snoc l x :
  sort_forward lt (l ++ [x]) = insert_right lt x (sort_forward lt l).
Proof. unfold sort_forward. by rewrite fold_left_app. Qed.

Lemma sort_forward_ascending l : ascending lt (sort_forward lt l).
Proof.
  induction l as [|x l IH] using rev_ind; [constructor |].
  rewrite sort_forward_snoc. by apply insert_right_ascending.
Qed.

(** Inserting on the right of an ascending list is, read backwards,
    the descending insertion. *)
Lemma rev_insert_right x t :
  ascending lt t ->
  rev (insert_right lt x t) = insert_desc fst lt x (rev t).
Proof.
  unfold ascending. induction 1 as [|y t Hs IH Hy]; [done |].
  cbn [insert_right]. destruct (lt (fst x) (fst y)) eqn:Hxy.
  - change (rev (x :: y :: t)) with (rev (y :: t) ++ [x]).
    symmetry. apply insert_desc_last.
    cbn [rev]. apply Forall_app. split; [|by repeat constructor].
    apply Forall_rev. eapply List.Forall_impl; [|exact Hy].
    intros b Hby; simpl in Hby.
    destruct (lt_cotrans _ (fst b) _ Hxy) as [H | H]; [done | congruence].
  - cbn [rev]. rewrite IH. by rewrite insert_desc_snoc.
Qed.

(** The reverse sort of CPython is the stable descending sort. *)
Lemma sort_decorated_reverse l :
  sort_decorated lt true l = stable_sort_desc fst lt l.
Proof.
  unfold sort_decorated. induction l as [|x l IH]; [done |].
  cbn [rev stable_sort_desc]. rewrite sort_forward_snoc.
  rewrite rev_insert_right by apply sort_forward_ascending.
  by rewrite IH.
Qed.
End ForwardSort.

(** Sorting commutes with a map that respects the keys. *)
Lemma insert_desc_map {A B K : Type} (f : A -> B) (keyA : A -> K) (keyB : B -> K)
    (lt : K -> K -> bool) (x : A) (l : list A) :
  keyA x = keyB (f x) ->
  Forall (fun a => keyA a = keyB (f a)) l ->
  map f (insert_desc keyA lt x l) = insert_desc keyB lt (f x) (map f l).
Proof.
  intros Hx. induction 1 as [|y l Hy _ IH]; simpl; [done |].
  rewrite <- Hx, <- Hy. destruct (lt (keyA x) (keyA y)); simpl; [|done].
  by rewrite IH.
Qed.

Lemma stable_sort_desc_map {A B K : Type} (f : A -> B) (keyA : A -> K)
    (keyB : B -> K) (lt : K -> K -> bool) (l : list A) :
  Forall (fun a => keyA a = keyB (f a)) l ->
  map f (stable_sort_desc keyA lt l) = stable_sort_desc keyB lt (map f l).
Proof.
  induction 1 as [|x l Hx Hl IH]; simpl; [done |].
  rewrite <- IH. apply insert_desc_map; [done |].
  clear -Hl. induction l as [|y l IHl]; simpl; [done |].
  inversion Hl as [|? ? Hy Hl']; subst.
  specialize (IHl Hl').
  assert (forall z t, Forall (fun a => keyA a = keyB (f a)) t ->
            keyA z = keyB (f z) ->
            Forall (fun a => keyA a = keyB (f a)) (insert_desc keyA lt z t)) as Hins.
  { intros z t Ht Hz. induction Ht as [|w t Hw Ht IHt]; simpl.
    - by constructor.
    - destruct (lt (keyA z) (keyA w)); by repeat constructor. }
  by apply Hins.
Qed.

(** ** The order on values *)

Lemma Qltb_lt a b : Qltb a b = true <-> (a < b)%Q.
Proof.
  unfold Qltb. rewrite negb_true_iff, <- not_true_iff_false, Qle_bool_iff.
  split; [apply Qnot_le_lt | apply Qlt_not_le].
Qed.

Lemma string_ltb_lt s t : String.ltb s t = true <-> String_as_OT.lt s t.
Proof.
  rewrite <- String_as_OT.cmp_lt. unfold String.ltb, String_as_OT.cmp.
  by destruct (String.compare s t).
Qed.

Lemma string_lt_cotrans a b c :
  String_as_OT.lt a c -> String_as_OT.lt a b \/ String_as_OT.lt b c.
Proof.
  intros Hac. destruct (String_as_OT.cmp a b) eqn:E.
  - apply String_as_OT.cmp_eq in E as ->. by right.
  - left. by apply String_as_OT.cmp_lt.
  - right. apply String_as_OT.lt_trans with a; [|done].
    apply String_as_OT.cmp_lt. rewrite String_as_OT.cmp_antisym, E. done.
Qed.

Lemma py_lt_irrefl a : py_lt a a = false.
Proof.
  destruct a as [q | s]; simpl; apply not_true_iff_false.
  - rewrite Qltb_lt. apply Qlt_irrefl.
  - rewrite string_ltb_lt. intros H. by apply String_as_OT.lt_not_eq in H.
Qed.

Lemma py_lt_trans a b c : py_lt a b = true -> py_lt b c = true -> py_lt a c = true.
Proof.
  destruct a, b, c; simpl; try done.
  - rewrite !Qltb_lt. apply Qlt_trans.
  - rewrite !string_ltb_lt. apply String_as_OT.lt_trans.
Qed.

Lemma py_lt_cotrans a b c :
  py_lt a c = true -> py_lt a b = true \/ py_lt b c = true.
Proof.
  destruct a as [x | s], b as [y | t], c as [z | u]; simpl; auto.
  - rewrite !Qltb_lt. intros H. destruct (Qlt_le_dec x y); [by left | right].
    eapply Qle_lt_trans; done.
  - rewrite !string_ltb_lt. apply string_lt_cotrans.
Qed.

(** [list.sort(key=..., reverse=True)] on values is the stable descending
    sort of the specification. *)
Lemma py_sort_reverse {A : Type} (l : list (value * A)) :
  sort_decorated py_lt true l = stable_sort_desc fst py_lt l.
Proof.
  apply sort_decorated_reverse;
    [apply py_lt_irrefl | apply py_lt_trans | apply py_lt_cotrans].
Qed.

(** What the reference sort is: a rearrangement of its input, descending
    by score, with the records of equal score in input order. *)
Lemma reference_sort_correct (l : list (gmap string value)) :
  let sorted := stable_sort_desc score_of py_lt l in
  sorted ≡ₚ l /\ descending score_of py_lt sorted /\ stable score_of py_lt l sorted.
Proof.
  split; [apply stable_sort_desc_perm |].
  split.
  { apply stable_sort_desc_descending;
      [apply py_lt_irrefl | apply py_lt_trans | apply py_lt_cotrans]. }
  apply stable_sort_desc_stable, py_lt_cotrans.
Qed.

(** ** _merge_results *)

Lemma tag_tag n n' r : tag n' (tag n r) = tag n' r.
Proof. unfold tag. apply insert_insert_eq. Qed.

Lemma tag_score n r : tag n r !! "score" = r !! "score".
Proof. unfold tag. by rewrite lookup_insert_ne. Qed.

Lemma tag_results_at n rs h l :
  AdvancedSearchPlugin.tag_results n rs h l =
  if bool_decide (l ∈ rs) then tag n (h l) else h l.
Proof.
  revert h. induction rs as [|r rs IH]; intros h.
  - done.
  - cbn [AdvancedSearchPlugin.tag_results]. rewrite IH. fold (tag n (h r)).
    unfold upd. destruct (Nat.eqb_spec l r) as [-> | Hne].
    + rewrite (bool_decide_eq_true_2 (r ∈ r :: rs)) by left.
      case_bool_decide; [apply tag_tag | done].
    + rewrite (bool_decide_ext (l ∈ r :: rs) (l ∈ rs)); [done |].
      rewrite elem_of_cons. split; [by intros [? | ?] | by right].
Qed.

Lemma merge_loop_spec items all_results h :
  (AdvancedSearchPlugin.merge_loop items all_results h).1 =
    all_results ++ concat (map snd items)
  /\ forall l,
      (AdvancedSearchPlugin.merge_loop items all_results h).2 l =
      match last_owner items l with
      | Some n => tag n (h l)
      | None => h l
      end.
Proof.
  revert all_results h.
  induction items as [|[n rs] items IH]; intros acc h.
  - simpl. by rewrite app_nil_r.
  - cbn [AdvancedSearchPlugin.merge_loop].
    destruct (IH (acc ++ rs) (AdvancedSearchPlugin.tag_results n rs h))
      as [IH1 IH2].
    split.
    + rewrite IH1. simpl. by rewrite app_assoc.
    + intros l. rewrite IH2, tag_results_at. cbn [last_owner].
      destruct (last_owner items l); case_bool_decide; try done.
      apply tag_tag.
Qed.

Lemma last_owner_Some items l n :
  last_owner items l = Some n -> exists rs, (n, rs) ∈ items /\ l ∈ rs.
Proof.
  induction items as [|[n' rs'] items IH]; [done |]. cbn [last_owner].
  destruct (last_owner items l) as [m|].
  - intros [= ->]. destruct IH as (rs & ? & ?); [done |].
    exists rs. split; [by right | done].
  - case_bool_decide; [|done]. intros [= ->]. exists rs'. split; [left | done].
Qed.

Lemma last_owner_None items l n rs :
  last_owner items l = None -> (n, rs) ∈ items -> l ∉ rs.
Proof.
  induction items as [|[n' rs'] items IH]; [by intros _ ?%elem_of_nil |].
  cbn [last_owner]. destruct (last_owner items l); [done |].
  case_bool_decide; [done |].
  intros _ [[= -> ->] | ?]%elem_of_cons; [done | by apply IH].
Qed.

Lemma last_owner_unshared items n rs l :
  unshared items -> (n, rs) ∈ items -> l ∈ rs -> last_owner items l = Some n.
Proof.
  intros Hun Hin Hl. destruct (last_owner items l) as [n'|] eqn:E.
  - apply last_owner_Some in E as (rs' & Hin' & Hl').
    f_equal. by eapply Hun.
  - by destruct (last_owner_None _ _ _ _ E Hin).
Qed.

Lemma decorate_spec h ls :
  Forall (fun l => is_Some (h l !! "score")) ls ->
  exists dec,
    AdvancedSearchPlugin.decorate h ls = inr dec
    /\ map snd dec = ls
    /\ Forall (fun p => fst p = score_of (h (snd p))) dec.
Proof.
  induction 1 as [|l ls [k Hk] _ (dec & Hdec & Hsnd & Hkeys)].
  - by exists [].
  - exists ((k, l) :: dec). cbn [AdvancedSearchPlugin.decorate].
    unfold getitem. rewrite Hk, Hdec. split; [done |].
    split; [simpl; by rewrite Hsnd |].
    constructor; [|done]. unfold score_of. simpl. by rewrite Hk.
Qed.

Lemma slice_to_nonneg {A : Type} (l : list A) (stop : Z) :
  0 <= stop -> slice_to l stop = firstn (Z.to_nat stop) l.
Proof.
  intros Hs. unfold slice_to.
  destruct (Z.ltb_spec stop 0); [lia |].
  destruct (Z.le_gt_cases stop (Z.of_nat (length l))).
  - by rewrite Z.min_l.
  - rewrite Z.min_r, Nat2Z.id by lia.
    rewrite !firstn_all2; [done | lia | lia].
Qed.

(** C1, as the code has it: when [per_page] is not negative and no dict
    object is shared between two providers, [_merge_results] returns the
    records the reference definition gives: each tagged with its
    provider's name, all lists concatenated in the iteration order of the
    mapping, sorted by score descending with ties in input order, cut to
    the first [per_page]. *)
Theorem merge_results_reference (result_map : gmap string (list loc))
    (per_page : Z) (h : heap) :
  0 <= per_page ->
  unshared (map_to_list result_map) ->
  all_scored h (map_to_list result_map) ->
  exists results h',
    AdvancedSearchPlugin._merge_results result_map per_page h = (inr results, h')
    /\ map h' results
        = merge_reference (deref h (map_to_list result_map)) per_page.
Proof.
  unfold AdvancedSearchPlugin._merge_results.
  generalize (map_to_list result_map). intros items Hpp Hun Hsc.
  unfold AdvancedSearchPlugin.merge_items.
  destruct (merge_loop_spec items [] h) as [Hall Hh'].
  destruct (AdvancedSearchPlugin.merge_loop items [] h) as [all h'].
  simpl in Hall, Hh'. subst all.
  assert (Htagged : forall n rs l, (n, rs) ∈ items -> l ∈ rs -> h' l = tag n (h l)).
  { intros n rs l Hin Hl. by rewrite Hh', (last_owner_unshared _ _ _ _ Hun Hin Hl). }
  destruct (decorate_spec h' (concat (map snd items))) as (dec & Hdec & Hsnd & Hkeys).
  { apply List.Forall_forall. intros l Hl.
    apply in_concat in Hl as (rs & Hrs & Hl).
    apply in_map_iff in Hrs as ([n rs'] & <- & Hin). simpl in Hl.
    apply list_elem_of_In in Hin, Hl.
    rewrite (Htagged _ _ _ Hin Hl), tag_score. by eapply Hsc. }
  rewrite Hdec. cbn [mbind exc_bind mret exc_ret].
  eexists _, h'. split; [reflexivity |].
  rewrite slice_to_nonneg, py_sort_reverse by done.
  unfold merge_reference. rewrite <- firstn_map, map_map. f_equal.
  rewrite (stable_sort_desc_map (fun p => h' (snd p)) fst score_of) by done.
  f_equal. rewrite <- (map_map snd h'), Hsnd.
  unfold deref. rewrite concat_map, !map_map. f_equal.
  apply map_ext_in. intros [n rs] Hin. simpl. rewrite map_map.
  apply map_ext_in. intros l Hl.
  apply list_elem_of_In in Hin, Hl. by eapply Htagged.
Qed.

Lemma one_backend_items :
  @eq (list (string * list loc)) (map_to_list one_backend) [("a", [0; 2]%nat)].
Proof. apply map_to_list_singleton. Qed.

Lemma merge_results_reference_witness :
  0 <= 1 /\
  unshared (map_to_list one_backend) /\
  all_scored fresh_heap (map_to_list one_backend) /\
  exists results h',
    AdvancedSearchPlugin._merge_results one_backend 1 fresh_heap = (inr results, h')
    /\ map h' results
        = [tag "a" (record "TracHelp" "wiki" (9 # 10))].
Proof.
  assert (Hun : unshared (map_to_list one_backend)).
  { rewrite one_backend_items.
    intros n1 rs1 n2 rs2 l [= -> ->]%list_elem_of_singleton
      [= -> ->]%list_elem_of_singleton _ _.
    reflexivity. }
  assert (Hsc : all_scored fresh_heap (map_to_list one_backend)).
  { rewrite one_backend_items.
    intros n rs l [= -> ->]%list_elem_of_singleton Hl.
    apply elem_of_cons in Hl as [-> | Hl]; [by eexists |].
    apply list_elem_of_singleton in Hl as ->. by eexists. }
  split; [lia |]. split; [exact Hun |]. split; [exact Hsc |].
  destruct (merge_results_reference one_backend 1 fresh_heap
              ltac:(lia) Hun Hsc) as (results & h' & Hrun & Href).
  exists results, h'. split; [exact Hrun |].
  rewrite Href, one_backend_items. reflexivity.
Defined.

(** C1 as stated fails at [per_page = -1]: the slice drops the last
    record and keeps the other, where the reference keeps none. *)
Lemma merge_results_negative_per_page :
  ~ exists results h',
      AdvancedSearchPlugin._merge_results one_backend (-1) fresh_heap
        = (inr results, h')
      /\ map h' results
          = merge_reference (deref fresh_heap (map_to_list one_backend)) (-1).
Proof.
  intros (results & h' & Hrun & Href).
  unfold AdvancedSearchPlugin._merge_results in Hrun.
  rewrite one_backend_items in Hrun, Href.
  apply (f_equal fst) in Hrun. vm_compute in Hrun. injection Hrun as <-.
  apply (f_equal (@length _)) in Href. vm_compute in Href. discriminate.
Qed.

(** A dict object that two providers both returned ends up with one tag,
    so the two copies in the merge cannot carry both names. *)
Lemma merge_results_shared_dict :
  ~ exists results h',
      AdvancedSearchPlugin._merge_results shared_dict 10 fresh_heap
        = (inr results, h')
      /\ map h' results
          = merge_reference (deref fresh_heap (map_to_list shared_dict)) 10.
Proof.
  intros (results & h' & Hrun & Href).
  assert (exists a b, map (fun r => r !! "backend_name")
            (merge_reference (deref fresh_heap (map_to_list shared_dict)) 10)
            = [Some (VStr a); Some (VStr b)] /\ a <> b) as (a & b & Hab & Hne).
  { vm_compute. do 2 eexists. split; [reflexivity | discriminate]. }
  rewrite <- Href in Hab.
  injection Hrun as Hres Hh'. vm_compute in Hres.
  rewrite <- Hres in Hab. simpl in Hab. congruence.
Qed.

(** ** _add_href_to_results *)

Lemma resolved_is_wiki href_wiki r : is_wiki (resolved href_wiki r) = is_wiki r.
Proof.
  unfold resolved. destruct (is_wiki r) eqn:E; [|done].
  destruct (r !! "title"); [|done].
  unfold is_wiki in *. by rewrite lookup_insert_ne.
Qed.

Lemma resolved_title href_wiki r : resolved href_wiki r !! "title" = r !! "title".
Proof.
  unfold resolved. destruct (is_wiki r); [|done].
  destruct (r !! "title") eqn:E; [|done]. by rewrite lookup_insert_ne.
Qed.

Lemma resolved_idem href_wiki r :
  resolved href_wiki (resolved href_wiki r) = resolved href_wiki r.
Proof.
  unfold resolved at 1. rewrite resolved_is_wiki, resolved_title.
  unfold resolved. destruct (is_wiki r); [|done].
  destruct (r !! "title"); [|done]. apply insert_insert_eq.
Qed.

Lemma resolvable_resolved href_wiki r :
  resolvable r -> resolvable (resolved href_wiki r).
Proof.
  unfold resolvable. rewrite resolved_is_wiki, resolved_title.
  intros [Hs Ht]. split; [|done].
  unfold resolved. destruct (is_wiki r); [|done].
  destruct (r !! "title"); [|done]. by rewrite lookup_insert_ne.
Qed.

(** The loop of [_add_href_to_results] ends, and leaves every dict of
    the list resolved and every other dict alone. *)
Lemma add_href_at href_wiki results h :
  Forall (fun l => resolvable (h l)) results ->
  exists h',
    AdvancedSearchPlugin._add_href_to_results href_wiki results h = (inr tt, h')
    /\ forall l, h' l = if bool_decide (l ∈ results)
                        then resolved href_wiki (h l) else h l.
Proof.
  revert h. induction results as [|r rest IH]; intros h Hres.
  - by exists h.
  - inversion Hres as [|? ? [[src Hsrc] Htitle] Hrest]; subst.
    cbn [AdvancedSearchPlugin._add_href_to_results]. unfold getitem.
    rewrite Hsrc.
    assert (Hw : is_wiki (h r) = py_eq_str src "wiki")
      by (unfold is_wiki; by rewrite Hsrc).
    destruct (py_eq_str src "wiki") eqn:Hsw.
    + destruct (Htitle Hw) as [title Ht]. rewrite Ht.
      set (h1 := upd h r (<["href" := VStr (href_wiki title)]> (h r))).
      assert (Hh1 : forall l, h1 l = if Nat.eqb l r
                                     then resolved href_wiki (h r) else h l).
      { intros l. unfold h1, upd, resolved. by rewrite Hw, Ht. }
      destruct (IH h1) as (h' & Hrun & Hh').
      { eapply List.Forall_impl; [|exact Hrest]. intros l Hl. simpl.
        rewrite Hh1. destruct (Nat.eqb_spec l r) as [-> | _]; [|done].
        by apply resolvable_resolved. }
      exists h'. split; [done |]. intros l. rewrite Hh', Hh1.
      destruct (Nat.eqb_spec l r) as [-> | Hne].
      * rewrite (bool_decide_eq_true_2 (r ∈ r :: rest)) by left.
        case_bool_decide; [apply resolved_idem | done].
      * rewrite (bool_decide_ext (l ∈ r :: rest) (l ∈ rest)); [done |].
        rewrite elem_of_cons. split; [by intros [? | ?] | by right].
    + destruct (IH h Hrest) as (h' & Hrun & Hh').
      exists h'. split; [done |]. intros l. rewrite Hh'.
      destruct (decide (l = r)) as [-> | Hne].
      * rewrite (bool_decide_eq_true_2 (r ∈ r :: rest)) by left.
        case_bool_decide; [done |]. unfold resolved. by rewrite Hw.
      * rewrite (bool_decide_ext (l ∈ r :: rest) (l ∈ rest)); [done |].
        rewrite elem_of_cons. split; [by intros [? | ?] | by right].
Qed.

(** C8: on records that have a source (and a title when the source is
    ['wiki']), [_add_href_to_results] sets ['href'] in exactly the dicts
    of the list whose source is ['wiki'] and changes nothing else: a dict
    of another source is left as it was, dicts outside the list are left
    as they were, and the list itself, which the function does not
    write, holds the same dicts in the same order. *)
Theorem add_href_only_wiki (href_wiki : value -> string) (results : list loc)
    (h : heap) :
  Forall (fun l => resolvable (h l)) results ->
  exists h',
    AdvancedSearchPlugin._add_href_to_results href_wiki results h = (inr tt, h')
    /\ (forall l, l ∈ results -> is_wiki (h l) = true ->
          exists title, h l !! "title" = Some title
            /\ h' l = <["href" := VStr (href_wiki title)]> (h l))
    /\ (forall l, l ∈ results -> is_wiki (h l) = false ->
          h' l = h l /\ h' l !! "href" = h l !! "href")
    /\ (forall l, l ∉ results -> h' l = h l)
    /\ map h' results = map (fun l => resolved href_wiki (h l)) results.
Proof.
  intros Hres. destruct (add_href_at href_wiki results h Hres) as (h' & Hrun & Hh').
  exists h'. split; [done |]. repeat split.
  - intros l Hl Hw. rewrite Hh', bool_decide_eq_true_2 by done.
    rewrite List.Forall_forall in Hres.
    destruct (Hres l) as [_ [title Ht]]; [by apply list_elem_of_In | done |].
    exists title. split; [done |]. unfold resolved. by rewrite Hw, Ht.
  - rename select (is_wiki _ = false) into Hw.
    rewrite Hh', bool_decide_eq_true_2 by done. unfold resolved. by rewrite Hw.
  - rename select (is_wiki _ = false) into Hw.
    rewrite Hh', bool_decide_eq_true_2 by done. unfold resolved. by rewrite Hw.
  - intros l Hl. by rewrite Hh', bool_decide_eq_false_2.
  - apply map_ext_in. intros l Hl. apply list_elem_of_In in Hl.
    by rewrite Hh', bool_decide_eq_true_2.
Qed.

Lemma add_href_only_wiki_witness :
  Forall (fun l => resolvable (tagged_heap l)) [0; 1; 2]%nat /\
  exists h',
    AdvancedSearchPlugin._add_href_to_results example_href [0; 1; 2]%nat tagged_heap
      = (inr tt, h')
    /\ h' 0%nat !! "href" = Some (VStr "/wiki/TracHelp")
    /\ h' 1%nat = tagged_heap 1%nat.
Proof.
  assert (Hres : Forall (fun l => resolvable (tagged_heap l)) [0; 1; 2]%nat).
  { repeat constructor; try (by eexists); intros _; by eexists. }
  split; [exact Hres |].
  destruct (add_href_only_wiki example_href [0; 1; 2]%nat tagged_heap Hres)
    as (h' & Hrun & Hwiki & Hother & _).
  exists h'. split; [exact Hrun |]. split.
  - destruct (Hwiki 0%nat) as (title & Ht & ->); [left | reflexivity |].
    injection Ht as <-. reflexivity.
  - apply Hother; [right; left | reflexivity].
Defined.

(** ** process_request *)

Import AdvancedSearchPlugin.

Lemma send_response_returns providers data r log :
  _send_response providers data = (inr r, log) -> r = ("advsearch.html", data).
Proof.
  unfold _send_response.
  destruct (match data !! "results" with Some _ => _ | None => _ end);
    [done | by intros [= <- _]].
Qed.

Lemma send_response_no_results providers data :
  data !! "results" = None ->
  exists log, _send_response providers data = (inr ("advsearch.html", data), log).
Proof. intros Hno. unfold _send_response. rewrite Hno. by eexists. Qed.

Lemma finish_returns dumps providers data results pg h r log :
  finish dumps providers data results pg h = (inr r, log) ->
  r = ("advsearch.html", data).
Proof.
  unfold finish.
  destruct (if has_next_page pg then _ else _); [done |].
  destruct (_send_response providers data) as [r' log'] eqn:E.
  intros [= -> _]. by eapply send_response_returns.
Qed.

Lemma initial_data_no_results providers req_args :
  initial_data providers req_args !! "results" = None.
Proof. unfold initial_data. by rewrite !lookup_insert_ne, lookup_empty. Qed.


(** The loop over the providers hands each the dict as the one before
    left it; when no backend changes it, that is the initial dict. *)
Lemma query_providers_calls providers data h total result_map calls :
  Forall (fun p => forall d h', (query_backend p d h').2.1 = d) providers ->
  (query_providers providers data h total result_map calls).2 =
  calls ++ map (fun p => (get_name p, data)) providers.
Proof.
  intros Hkeep. revert h total result_map calls.
  induction Hkeep as [|p ps Hp _ IH]; intros h total rm calls.
  - simpl. by rewrite app_nil_r.
  - cbn [query_providers]. specialize (Hp data h).
    destruct (query_backend p data h) as [[count lst] [d' h']].
    simpl in Hp. subst d'. rewrite IH. simpl. by rewrite <- app_assoc.
Qed.

Lemma process_request_calls href_wiki Paginator dumps providers req h :
  "SEARCH_VIEW" ∈ perm req ->
  query_is_empty (args req !! "q") = false ->
  backend_calls (process_request href_wiki Paginator dumps providers req h) =
  (query_providers providers (initial_data providers (args req)) h 0 ∅ []).2.
Proof.
  intros Hperm Hq. unfold process_request.
  rewrite bool_decide_eq_true_2 by done. cbn [negb]. rewrite Hq.
  destruct (query_providers _ _ _ _ _ _) as [[[[d h1] total] rm] calls].
  destruct (_merge_results _ _ _) as [[e | results] h2]; [done |].
  destruct (_add_href_to_results _ _ _) as [[e | []] h3]; [done |].
  destruct (Paginator _ _ _ _) as [e | pg]; [done |].
  by destruct (finish _ _ _ _ _ _).
Qed.

Lemma initial_data_dom providers req_args :
  dom (initial_data providers req_args) =
  ({["source"; "author"; "date_start"; "date_end"; "q"; "start_points"]}
     : gset string).
Proof.
  unfold initial_data. rewrite !dom_insert_L, dom_empty_L. set_solver.
Qed.

(** C7, as the code has it: on a search, the request parameters [q],
    [author] (empty entries dropped), [source_filters] (under the key
    [source]), [date_start] and [date_end], with the start points, make
    one criteria dict; [page] and [per_page] are not in it.  Every
    provider's [query_backend] is called once, in order, and, as long as
    no backend changes the dict it is handed, each receives that same
    dict. *)
Theorem providers_receive_criteria (href_wiki : value -> string)
    (Paginator : list loc -> Z -> Z -> Z -> exc paginator)
    (dumps : json -> string) (providers : list provider) (req : request)
    (h : heap) :
  "SEARCH_VIEW" ∈ perm req ->
  query_is_empty (args req !! "q") = false ->
  Forall (fun p => forall d h', (query_backend p d h').2.1 = d) providers ->
  exists criteria : gmap string dval,
    backend_calls (process_request href_wiki Paginator dumps providers req h)
      = map (fun p => (get_name p, criteria)) providers
    /\ criteria !! "q" = Some (dval_of_arg (args req !! "q"))
    /\ criteria !! "author" =
         Some (DList (List.filter (fun auth => negb (String.eqb auth ""))
                        (getlist (args req) "author")))
    /\ criteria !! "source" = Some (DList (getlist (args req) "source_filters"))
    /\ criteria !! "date_start" =
         Some (dval_of_first (getfirst (args req) "date_start"))
    /\ criteria !! "date_end" =
         Some (dval_of_first (getfirst (args req) "date_end"))
    /\ criteria !! "start_points" =
         Some (DStartPoints (StartPoints.parse_args (args req) providers))
    /\ dom criteria =
         ({["source"; "author"; "date_start"; "date_end"; "q"; "start_points"]}
            : gset string).
Proof.
  intros Hperm Hq Hkeep.
  exists (initial_data providers (args req)).
  split.
  { rewrite process_request_calls by done. by rewrite query_providers_calls. }
  split; [|split; [|split; [|split; [|split; [|split]]]]];
    try apply initial_data_dom;
    unfold initial_data;
    repeat (rewrite lookup_insert_ne by done); by rewrite lookup_insert_eq.
Qed.

Lemma may_search : "SEARCH_VIEW" ∈ ({["SEARCH_VIEW"]} : gset string).
Proof. by apply elem_of_singleton_2. Qed.

Lemma search_request_calls :
  backend_calls (process_request example_href example_paginator example_dumps
                   [quiet_backend "a"; quiet_backend "b"] search_request empty_heap)
  = map (fun p => (get_name p,
                   initial_data [quiet_backend "a"; quiet_backend "b"]
                     (args search_request)))
      [quiet_backend "a"; quiet_backend "b"].
Proof.
  rewrite process_request_calls; [| apply may_search | reflexivity].
  rewrite query_providers_calls; [done |].
  repeat constructor.
Qed.

Lemma providers_receive_criteria_witness :
  "SEARCH_VIEW" ∈ perm search_request /\
  query_is_empty (args search_request !! "q") = false /\
  Forall (fun p => forall d h', (query_backend p d h').2.1 = d)
    [quiet_backend "a"; quiet_backend "b"] /\
  exists criteria : gmap string dval,
    backend_calls (process_request example_href example_paginator example_dumps
                     [quiet_backend "a"; quiet_backend "b"] search_request empty_heap)
      = [("a", criteria); ("b", criteria)]
    /\ criteria !! "q" = Some (DStr "trac").
Proof.
  assert (Hperm : "SEARCH_VIEW" ∈ perm search_request) by apply may_search.
  assert (Hkeep : Forall (fun p => forall d h', (query_backend p d h').2.1 = d)
            [quiet_backend "a"; quiet_backend "b"]) by (repeat constructor).
  split; [exact Hperm |]. split; [reflexivity |]. split; [exact Hkeep |].
  destruct (providers_receive_criteria example_href example_paginator
              example_dumps [quiet_backend "a"; quiet_backend "b"]
              search_request empty_heap Hperm eq_refl Hkeep)
    as (criteria & Hcalls & Hquery & _).
  exists criteria. split; [exact Hcalls | exact Hquery].
Defined.

(** C7 as stated fails: the request carries [page=2] and [per_page=5],
    and the criteria the backends receive have neither key. *)
Lemma criteria_without_page :
  ~ forall name criteria,
      (name, criteria) ∈
        backend_calls (process_request example_href example_paginator
                         example_dumps [quiet_backend "a"; quiet_backend "b"]
                         search_request empty_heap) ->
      criteria !! "page" = Some (DInt 2) /\ criteria !! "per_page" = Some (DInt 5).
Proof.
  intros Hall.
  destruct (Hall "a" (initial_data [quiet_backend "a"; quiet_backend "b"]
                        (args search_request))) as [Hpage _].
  - rewrite search_request_calls. left.
  - unfold initial_data in Hpage.
    by rewrite !lookup_insert_ne, lookup_empty in Hpage.
Qed.

(** C9: when [q] is absent or empty, [process_request] calls no
    backend and touches no result dict; for a user who may search it
    returns the template with the initial data, which has no [results]
    entry. *)
Theorem empty_query_no_backend (href_wiki : value -> string)
    (Paginator : list loc -> Z -> Z -> Z -> exc paginator)
    (dumps : json -> string) (providers : list provider) (req : request)
    (h : heap) :
  args req !! "q" = None \/ args req !! "q" = Some (AStr "") ->
  let r := process_request href_wiki Paginator dumps providers req h in
  backend_calls r = []
  /\ heap_after r = h
  /\ ("SEARCH_VIEW" ∈ perm req ->
      exists data,
        returned r = inr ("advsearch.html", data)
        /\ data !! "results" = None
        /\ data = initial_data providers (args req)).
Proof.
  intros Hq r.
  assert (Hempty : query_is_empty (args req !! "q") = true)
    by (destruct Hq as [-> | ->]; reflexivity).
  subst r. unfold process_request. rewrite Hempty.
  destruct (send_response_no_results providers
              (initial_data providers (args req))
              (initial_data_no_results _ _)) as [log Hlog].
  rewrite Hlog.
  case_bool_decide as Hperm; cbn [negb backend_calls heap_after returned].
  - split; [done |]. split; [done |]. intros _.
    eexists. split; [done |]. split; [apply initial_data_no_results | done].
  - by split.
Qed.

Lemma empty_query_no_backend_witness :
  (args blank_request !! "q" = None \/ args blank_request !! "q" = Some (AStr "")) /\
  backend_calls (process_request example_href example_paginator example_dumps
                   [quiet_backend "a"] blank_request empty_heap) = [] /\
  exists data,
    returned (process_request example_href example_paginator example_dumps
                [quiet_backend "a"] blank_request empty_heap)
      = inr ("advsearch.html", data)
    /\ data !! "results" = None.
Proof.
  assert (Hq : args blank_request !! "q" = None
               \/ args blank_request !! "q" = Some (AStr ""))
    by (right; reflexivity).
  split; [exact Hq |].
  destruct (empty_query_no_backend example_href example_paginator example_dumps
              [quiet_backend "a"] blank_request empty_heap Hq)
    as (Hcalls & _ & Hret).
  split; [exact Hcalls |].
  destruct Hret as (data & Hdata & Hno & _); [apply may_search |].
  exists data. split; [exact Hdata | exact Hno].
Defined.

(** ** The handler on examples *)

(** Two backends: the tie between 2 and 1 keeps the order of the lists. *)
Example merge_items_stable :
  (AdvancedSearchPlugin.merge_items
     [("a", [0; 2]%nat); ("b", [1%nat])] 10 fresh_heap).1
  = inr [0; 2; 1]%nat.
Proof. vm_compute. reflexivity. Qed.

Example merge_items_first_two :
  (AdvancedSearchPlugin.merge_items
     [("b", [1%nat]); ("a", [0; 2]%nat)] 2 fresh_heap).1
  = inr [0; 1]%nat.
Proof. vm_compute. reflexivity. Qed.

Example merge_items_missing_score :
  (AdvancedSearchPlugin.merge_items [("a", [0; 7]%nat)] 10 fresh_heap).1
  = inl (KeyError "score").
Proof. vm_compute. reflexivity. Qed.

Example search_returns :
  exists data,
    returned (process_request example_href example_paginator example_dumps
                [quiet_backend "a"] search_request empty_heap)
      = inr ("advsearch.html", data)
    /\ data !! "per_page" = Some (DInt 5) /\ data !! "page" = Some (DInt 2).
Proof. eexists. split; [vm_compute; reflexivity |]. split; reflexivity. Qed.

Example forbidden_request :
  returned (process_request example_href example_paginator example_dumps
              [quiet_backend "a"]
              {| args := args search_request; perm := ∅ |} empty_heap)
  = inl (PermissionError "SEARCH_VIEW").
Proof. reflexivity. Qed.

(** * Further properties *)

(** ** _merge_results, whatever the sharing and the page size *)

Lemma merge_loop_score items acc h l :
  (merge_loop items acc h).2 l !! "score" = h l !! "score".
Proof.
  destruct (merge_loop_spec items acc h) as [_ Hh']. rewrite Hh'.
  destruct (last_owner items l); [apply tag_score | done].
Qed.

Lemma decorate_error h ls e :
  decorate h ls = inl e -> e = KeyError "score".
Proof.
  induction ls as [|l ls IH]; [done |]. cbn [decorate]. unfold getitem.
  destruct (h l !! "score"); [|by intros [= <-]]. cbn [mbind exc_bind].
  destruct (decorate h ls); [|done]. intros [= <-]. by apply IH.
Qed.

Lemma decorate_scored h ls dec :
  decorate h ls = inr dec -> Forall (fun l => is_Some (h l !! "score")) ls.
Proof.
  revert dec. induction ls as [|l ls IH]; intros dec; [by constructor |].
  cbn [decorate]. unfold getitem.
  destruct (h l !! "score") eqn:E; [|done]. cbn [mbind exc_bind].
  destruct (decorate h ls) as [|dec']; [done |]. intros _.
  constructor; [by eexists | by eapply IH].
Qed.

Lemma all_scored_Forall h items :
  all_scored h items ->
  Forall (fun l => is_Some (h l !! "score")) (concat (map snd items)).
Proof.
  intros Hsc. apply List.Forall_forall. intros l Hl.
  apply in_concat in Hl as (rs & Hrs & Hl).
  apply in_map_iff in Hrs as ([n rs'] & <- & Hin). simpl in Hl.
  apply list_elem_of_In in Hin, Hl. by eapply Hsc.
Qed.

(** What a run of the merge on scored results amounts to: the heap after
    the tagging loop, and the references sorted on their scores there. *)
Lemma merge_items_run items per_page h :
  all_scored h items ->
  let h' := (merge_loop items [] h).2 in
  merge_items items per_page h =
  (inr (slice_to (stable_sort_desc (fun l => score_of (h' l)) py_lt
                    (concat (map snd items))) per_page), h').
Proof.
  intros Hsc h'. unfold merge_items. subst h'.
  destruct (merge_loop_spec items [] h) as [Hall _].
  pose proof (merge_loop_score items [] h) as Hscore.
  destruct (merge_loop items [] h) as [all h']. simpl in Hall, Hscore.
  cbn beta iota. cbn [snd]. subst all.
  destruct (decorate_spec h' (concat (map snd items))) as (dec & Hdec & Hsnd & Hkeys).
  { eapply List.Forall_impl; [|by apply all_scored_Forall].
    intros l Hl. simpl. by rewrite Hscore. }
  rewrite Hdec. cbn [mbind exc_bind mret exc_ret].
  rewrite py_sort_reverse.
  rewrite (stable_sort_desc_map snd fst (fun l => score_of (h' l))) by done.
  by rewrite Hsnd.
Qed.

Lemma slice_to_length {A : Type} (l : list A) (stop : Z) :
  Z.of_nat (length (slice_to l stop)) =
  if (stop <? 0)%Z then Z.max 0 (Z.of_nat (length l) + stop)
  else Z.min stop (Z.of_nat (length l)).
Proof.
  unfold slice_to. rewrite length_firstn.
  destruct (Z.ltb_spec stop 0); lia.
Qed.

Lemma stable_sort_desc_length {A K : Type} (key : A -> K) (lt : K -> K -> bool)
    (l : list A) :
  length (stable_sort_desc key lt l) = length l.
Proof. apply Permutation_length, stable_sort_desc_perm. Qed.

(** X1: with scored results, [_merge_results] returns [min per_page n]
    records out of the [n] the providers returned when [per_page] is not
    negative, and [max 0 (n + per_page)] when it is: a negative page
    size drops records from the end. *)
Theorem merge_results_length (result_map : gmap string (list loc))
    (per_page : Z) (h : heap) :
  all_scored h (map_to_list result_map) ->
  exists results h',
    _merge_results result_map per_page h = (inr results, h')
    /\ Z.of_nat (length results) =
       if (per_page <? 0)%Z
       then Z.max 0 (total_results (map_to_list result_map) + per_page)
       else Z.min per_page (total_results (map_to_list result_map)).
Proof.
  unfold _merge_results, total_results.
  generalize (map_to_list result_map). intros items Hsc.
  rewrite (merge_items_run items per_page h Hsc).
  eexists _, _. split; [reflexivity |].
  by rewrite slice_to_length, stable_sort_desc_length.
Qed.

Lemma descending_ext {A K : Type} (key key' : A -> K) (lt : K -> K -> bool)
    (l : list A) :
  (forall a, key a = key' a) -> descending key lt l -> descending key' lt l.
Proof.
  intros Hk. unfold descending. induction 1 as [|a l _ IH Ha]; constructor.
  - done.
  - eapply List.Forall_impl; [|exact Ha]. intros b. simpl. by rewrite !Hk.
Qed.

(** X2: with scored results, what [_merge_results] returns is a leading
    part of the whole collection put in descending order of score: the
    returned references and the ones left out are together a
    rearrangement of the providers' lists, and no reference, returned or
    left out, is followed by one of a greater score. *)
Theorem merge_results_top (result_map : gmap string (list loc))
    (per_page : Z) (h : heap) :
  all_scored h (map_to_list result_map) ->
  exists results h' rest,
    _merge_results result_map per_page h = (inr results, h')
    /\ results ++ rest ≡ₚ concat (map snd (map_to_list result_map))
    /\ descending (fun l => score_of (h l)) py_lt (results ++ rest).
Proof.
  unfold _merge_results.
  generalize (map_to_list result_map). intros items Hsc.
  rewrite (merge_items_run items per_page h Hsc).
  set (h' := (merge_loop items [] h).2).
  set (sorted := stable_sort_desc (fun l => score_of (h' l)) py_lt
                   (concat (map snd items))).
  exists (slice_to sorted per_page), h',
    (skipn (length (slice_to sorted per_page)) sorted).
  assert (Hcut : slice_to sorted per_page
                 ++ skipn (length (slice_to sorted per_page)) sorted = sorted).
  { unfold slice_to. rewrite length_firstn.
    set (k := Z.to_nat _).
    destruct (Nat.le_gt_cases k (length sorted)).
    - rewrite Nat.min_l by done. apply firstn_skipn.
    - rewrite Nat.min_r, firstn_all2, skipn_all by lia. apply app_nil_r. }
  split; [done |]. rewrite Hcut. split.
  - apply stable_sort_desc_perm.
  - apply (descending_ext (fun l => score_of (h' l))).
    + intros l. unfold score_of, h'. by rewrite merge_loop_score.
    + apply stable_sort_desc_descending;
        [apply py_lt_irrefl | apply py_lt_trans | apply py_lt_cotrans].
Qed.

Lemma merge_items_heap items per_page h :
  (merge_items items per_page h).2 = (merge_loop items [] h).2.
Proof. unfold merge_items. by destruct (merge_loop items [] h). Qed.

(** X3: the tagging of [_merge_results], whether or not the sort later
    raises: no key but ['backend_name'] is changed in any dict, a dict
    that no provider returned is left as it was, and a dict that some
    provider returned carries the name of a provider that returned it. *)
Theorem merge_results_tags (result_map : gmap string (list loc))
    (per_page : Z) (h : heap) (l : loc) :
  let h' := (_merge_results result_map per_page h).2 in
  (forall k, k ≠ "backend_name" -> h' l !! k = h l !! k)
  /\ ((forall n rs, result_map !! n = Some rs -> l ∉ rs) -> h' l = h l)
  /\ (forall n rs, result_map !! n = Some rs -> l ∈ rs ->
        exists n' rs', result_map !! n' = Some rs' /\ l ∈ rs'
          /\ h' l !! "backend_name" = Some (VStr n')).
Proof.
  intros h'. subst h'. unfold _merge_results. rewrite merge_items_heap.
  destruct (merge_loop_spec (map_to_list result_map) [] h) as [_ Hh'].
  rewrite Hh'. clear Hh'.
  destruct (last_owner (map_to_list result_map) l) as [n0|] eqn:Hown.
  - apply last_owner_Some in Hown as (rs0 & Hin0 & Hl0).
    apply elem_of_map_to_list in Hin0.
    split; [|split].
    + intros k Hk. unfold tag. by rewrite lookup_insert_ne.
    + intros Hnone. by destruct (Hnone n0 rs0 Hin0).
    + intros _ _ _ _. exists n0, rs0. split; [done |]. split; [done |].
      unfold tag. by rewrite lookup_insert_eq.
  - split; [done |]. split; [done |].
    intros n rs Hin Hl. apply elem_of_map_to_list in Hin.
    by destruct (last_owner_None _ _ _ _ Hown Hin).
Qed.

(** X4: when a provider returned a dict without a ['score'] key,
    [_merge_results] raises [KeyError('score')]. *)
Theorem merge_results_missing_score (result_map : gmap string (list loc))
    (per_page : Z) (h : heap) (n : string) (rs : list loc) (l : loc) :
  result_map !! n = Some rs -> l ∈ rs -> h l !! "score" = None ->
  (_merge_results result_map per_page h).1 = inl (KeyError "score").
Proof.
  intros Hin Hl Hnone. apply elem_of_map_to_list in Hin.
  unfold _merge_results, merge_items.
  generalize dependent (map_to_list result_map). intros items Hin.
  destruct (merge_loop_spec items [] h) as [Hall _].
  pose proof (merge_loop_score items [] h) as Hscore.
  destruct (merge_loop items [] h) as [all h']. simpl in Hall, Hscore.
  subst all. cbn [fst].
  destruct (decorate h' (concat (map snd items))) as [e | dec] eqn:Hdec.
  - cbn [mbind exc_bind]. f_equal. by eapply decorate_error.
  - apply decorate_scored in Hdec. rewrite List.Forall_forall in Hdec.
    destruct (Hdec l) as [v Hv].
    + apply in_concat. exists rs. split; [|by apply list_elem_of_In].
      apply in_map_iff. exists (n, rs). split; [done |].
      by apply list_elem_of_In.
    + rewrite Hscore, Hnone in Hv. done.
Qed.

Lemma one_backend_scored : all_scored fresh_heap (map_to_list one_backend).
Proof.
  rewrite one_backend_items.
  intros n rs l [= -> ->]%list_elem_of_singleton Hl.
  apply elem_of_cons in Hl as [-> | Hl]; [by eexists |].
  apply list_elem_of_singleton in Hl as ->. by eexists.
Defined.

Lemma merge_results_length_witness :
  all_scored fresh_heap (map_to_list one_backend) /\
  exists results h',
    _merge_results one_backend (-5) fresh_heap = (inr results, h')
    /\ Z.of_nat (length results) = 0.
Proof.
  split; [exact one_backend_scored |].
  destruct (merge_results_length one_backend (-5) fresh_heap one_backend_scored)
    as (results & h' & Hrun & Hlen).
  exists results, h'. split; [exact Hrun |].
  rewrite Hlen. unfold total_results. rewrite one_backend_items. reflexivity.
Defined.

Lemma merge_results_top_witness :
  all_scored fresh_heap (map_to_list one_backend) /\
  exists results h' rest,
    _merge_results one_backend 1 fresh_heap = (inr results, h')
    /\ results ++ rest ≡ₚ [0; 2]%nat.
Proof.
  split; [exact one_backend_scored |].
  destruct (merge_results_top one_backend 1 fresh_heap one_backend_scored)
    as (results & h' & rest & Hrun & Hperm & _).
  exists results, h', rest. split; [exact Hrun |].
  rewrite one_backend_items in Hperm. exact Hperm.
Defined.

Lemma merge_results_missing_score_witness :
  one_backend !! "a" = Some [0; 2]%nat /\
  2%nat ∈ [0; 2]%nat /\
  empty_heap 2%nat !! "score" = None /\
  (_merge_results one_backend 10 empty_heap).1 = inl (KeyError "score").
Proof.
  split; [reflexivity |]. split; [right; left |]. split; [reflexivity |].
  apply (merge_results_missing_score one_backend 10 empty_heap "a" [0; 2]%nat 2%nat);
    [reflexivity | right; left | reflexivity].
Defined.

(** ** _add_href_to_results beyond well-formed records *)

(** X5: whether it returns or raises, [_add_href_to_results] changes no
    key but ['href'] in any dict. *)
Theorem add_href_other_keys (href_wiki : value -> string) (results : list loc)
    (h : heap) (l : loc) (k : string) :
  k ≠ "href" ->
  (_add_href_to_results href_wiki results h).2 l !! k = h l !! k.
Proof.
  intros Hk. revert h. induction results as [|r rest IH]; intros h; [done |].
  cbn [_add_href_to_results].
  destruct (getitem (h r) "source") as [e | source]; [done |].
  destruct (py_eq_str source "wiki"); [|apply IH].
  destruct (getitem (h r) "title") as [e | title]; [done |].
  rewrite IH. unfold upd. destruct (Nat.eqb_spec l r) as [-> | _]; [|done].
  by rewrite lookup_insert_ne.
Qed.

Lemma add_href_other_keys_witness :
  "score" ≠ "href" /\
  (_add_href_to_results example_href [0; 1; 2]%nat tagged_heap).2 0%nat !! "score"
  = Some (VNum (9 # 10)).
Proof.
  split; [discriminate |].
  rewrite (add_href_other_keys example_href [0; 1; 2]%nat tagged_heap 0%nat "score")
    by discriminate.
  reflexivity.
Defined.

(** X6: resolving the links a second time changes nothing: the second
    run returns as the first did and leaves every dict as the first left
    it. *)
Theorem add_href_idempotent (href_wiki : value -> string) (results : list loc)
    (h : heap) :
  Forall (fun l => resolvable (h l)) results ->
  exists h' h'',
    _add_href_to_results href_wiki results h = (inr tt, h')
    /\ _add_href_to_results href_wiki results h' = (inr tt, h'')
    /\ forall l, h'' l = h' l.
Proof.
  intros Hres.
  destruct (add_href_at href_wiki results h Hres) as (h' & Hrun & Hh').
  assert (Hres' : Forall (fun l => resolvable (h' l)) results).
  { rewrite List.Forall_forall in Hres |- *. intros l Hl.
    rewrite Hh', bool_decide_eq_true_2 by (by apply list_elem_of_In).
    by apply resolvable_resolved, Hres. }
  destruct (add_href_at href_wiki results h' Hres') as (h'' & Hrun' & Hh'').
  exists h', h''. split; [done |]. split; [done |].
  intros l. rewrite Hh'', Hh'. case_bool_decide; [apply resolved_idem | done].
Qed.

Lemma tagged_heap_resolvable :
  Forall (fun l => resolvable (tagged_heap l)) [0; 1; 2]%nat.
Proof. repeat constructor; try (by eexists); intros _; by eexists. Defined.

Lemma add_href_idempotent_witness :
  Forall (fun l => resolvable (tagged_heap l)) [0; 1; 2]%nat /\
  exists h' h'',
    _add_href_to_results example_href [0; 1; 2]%nat tagged_heap = (inr tt, h')
    /\ _add_href_to_results example_href [0; 1; 2]%nat h' = (inr tt, h'')
    /\ h'' 0%nat = h' 0%nat.
Proof.
  split; [exact tagged_heap_resolvable |].
  destruct (add_href_idempotent example_href [0; 1; 2]%nat tagged_heap
              tagged_heap_resolvable) as (h' & h'' & Hrun & Hrun' & Hsame).
  exists h', h''. split; [exact Hrun |]. split; [exact Hrun' | exact (Hsame 0%nat)].
Defined.

Lemma add_href_app href_wiki pre suffix h h1 :
  _add_href_to_results href_wiki pre h = (inr tt, h1) ->
  _add_href_to_results href_wiki (pre ++ suffix) h =
  _add_href_to_results href_wiki suffix h1.
Proof.
  revert h. induction pre as [|r pre IH]; intros h.
  - by intros [= ->].
  - cbn [_add_href_to_results app].
    destruct (getitem (h r) "source") as [e | source]; [done |].
    destruct (py_eq_str source "wiki"); [|apply IH].
    destruct (getitem (h r) "title") as [e | title]; [done |]. apply IH.
Qed.

(** X7: [_add_href_to_results] stops at the first dict it cannot resolve
    (no ['source'], or a wiki source and no ['title']) with the
    [KeyError] of the missing key; the dicts before it are resolved, all
    others are as they were. *)
Theorem add_href_stops_at_first_failure (href_wiki : value -> string)
    (pre post : list loc) (bad : loc) (h : heap) :
  Forall (fun l => resolvable (h l)) pre ->
  ~ resolvable (h bad) ->
  exists k h',
    _add_href_to_results href_wiki (pre ++ bad :: post) h = (inl (KeyError k), h')
    /\ (h bad !! "source" = None /\ k = "source"
        \/ is_wiki (h bad) = true /\ h bad !! "title" = None /\ k = "title")
    /\ forall l, h' l = if bool_decide (l ∈ pre)
                        then resolved href_wiki (h l) else h l.
Proof.
  intros Hpre Hbad.
  destruct (add_href_at href_wiki pre h Hpre) as (h1 & Hrun & Hh1).
  rewrite (add_href_app _ _ _ _ _ Hrun).
  assert (Hsame : h1 bad = h bad).
  { rewrite Hh1. case_bool_decide as Hin; [|done].
    rewrite List.Forall_forall in Hpre.
    by destruct Hbad; apply Hpre, list_elem_of_In. }
  cbn [_add_href_to_results]. rewrite Hsame. unfold getitem.
  destruct (h bad !! "source") as [source|] eqn:Hsrc.
  - assert (Hw : is_wiki (h bad) = py_eq_str source "wiki")
      by (unfold is_wiki; by rewrite Hsrc).
    destruct (py_eq_str source "wiki").
    + destruct (h bad !! "title") as [title|] eqn:Ht.
      * destruct Hbad. split; by eexists.
      * exists "title", h1. split; [done |]. split; [by right | done].
    + destruct Hbad. split; [by eexists |]. by rewrite Hw.
  - exists "source", h1. split; [done |]. split; [by left | done].
Qed.

Lemma add_href_stops_at_first_failure_witness :
  Forall (fun l => resolvable (tagged_heap l)) [0; 1]%nat /\
  ~ resolvable (tagged_heap 7%nat) /\
  exists k h',
    _add_href_to_results example_href ([0; 1] ++ 7 :: [2])%nat tagged_heap
      = (inl (KeyError k), h')
    /\ h' 0%nat !! "href" = Some (VStr "/wiki/TracHelp")
    /\ h' 2%nat = tagged_heap 2%nat.
Proof.
  assert (Hpre : Forall (fun l => resolvable (tagged_heap l)) [0; 1]%nat).
  { repeat constructor; try (by eexists); intros _; by eexists. }
  assert (Hbad : ~ resolvable (tagged_heap 7%nat)).
  { intros [[v Hv] _]. discriminate Hv. }
  split; [exact Hpre |]. split; [exact Hbad |].
  destruct (add_href_stops_at_first_failure example_href [0; 1]%nat [2%nat] 7%nat
              tagged_heap Hpre Hbad) as (k & h' & Hrun & _ & Hh').
  exists k, h'. split; [exact Hrun |]. rewrite !Hh'. split; reflexivity.
Defined.

(** ** StartPoints.format beyond tagged pages *)

Lemma format_loop_app h prev pre suffix start_points :
  StartPoints.format_loop h prev (pre ++ suffix) start_points =
  StartPoints.format_loop h prev pre start_points
    ≫= StartPoints.format_loop h prev suffix.
Proof.
  revert start_points. induction pre as [|l pre IH]; intros sp; [done |].
  cbn [app StartPoints.format_loop].
  destruct (StartPoints.format_step h prev sp l) as [e | sp1]; [done |].
  cbn [mbind exc_bind]. apply IH.
Qed.

(** X8: a record of the page without a ['backend_name'] key makes
    [StartPoints.format] raise [KeyError('backend_name')]. *)
Theorem format_untagged_record (dumps : json -> string) (h : heap)
    (prev : gmap string scalar) (pre post : list loc) (bad : loc) :
  all_tagged h pre ->
  h bad !! "backend_name" = None ->
  StartPoints.format dumps h (pre ++ bad :: post) prev
  = inl (KeyError "backend_name").
Proof.
  intros Hpre Hbad. unfold StartPoints.format. rewrite format_loop_app.
  destruct (format_loop_lookup h prev pre Hpre ∅) as (sp & -> & _).
  cbn [mbind exc_bind StartPoints.format_loop].
  unfold StartPoints.format_step, getitem. by rewrite Hbad.
Qed.

Lemma format_untagged_record_witness :
  all_tagged tagged_heap [0; 1]%nat /\
  fresh_heap 2%nat !! "backend_name" = None /\
  StartPoints.format example_dumps
    (upd tagged_heap 2%nat (fresh_heap 2%nat)) ([0; 1] ++ 2 :: [])%nat example_prev
  = inl (KeyError "backend_name").
Proof.
  assert (Hpre : all_tagged (upd tagged_heap 2%nat (fresh_heap 2%nat)) [0; 1]%nat).
  { repeat constructor; [exists "a" | exists "b"]; reflexivity. }
  split; [repeat constructor; [exists "a" | exists "b"]; reflexivity |].
  split; [reflexivity |].
  exact (format_untagged_record example_dumps
           (upd tagged_heap 2%nat (fresh_heap 2%nat)) example_prev
           [0; 1]%nat [] 2%nat Hpre eq_refl).
Defined.

Lemma total_advance_fresh prev start_points name v :
  start_points !! name = None ->
  total_advance prev (<[name := v]> start_points) =
  (v - StartPoints.prev_start prev name) + total_advance prev start_points.
Proof.
  intros Hnone. unfold total_advance.
  rewrite map_fold_insert_L; [done | intros; lia | done].
Qed.

Lemma total_advance_update prev start_points name v v' :
  start_points !! name = Some v ->
  total_advance prev (<[name := v']> start_points) =
  total_advance prev start_points + (v' - v).
Proof.
  intros Hsome.
  rewrite <- (insert_delete_eq start_points name v').
  rewrite <- (insert_delete_id start_points name v Hsome) at 2.
  rewrite !total_advance_fresh by apply lookup_delete_eq. lia.
Qed.

Lemma format_step_advance h prev start_points l start_points' :
  StartPoints.format_step h prev start_points l = inr start_points' ->
  total_advance prev start_points' = total_advance prev start_points + 1.
Proof.
  unfold StartPoints.format_step, getitem.
  destruct (h l !! "backend_name") as [[q | n]|]; [done | | done].
  cbn [mbind exc_bind mret exc_ret].
  destruct (start_points !! n) as [v|] eqn:Hn.
  - rewrite Hn. intros [= <-].
    rewrite (total_advance_update _ _ _ v) by done. lia.
  - rewrite lookup_insert_eq. intros [= <-].
    rewrite insert_insert_eq, total_advance_fresh by done. lia.
Qed.

Lemma format_loop_advance h prev results start_points start_points' :
  StartPoints.format_loop h prev results start_points = inr start_points' ->
  total_advance prev start_points' =
  total_advance prev start_points + Z.of_nat (length results).
Proof.
  revert start_points.
  induction results as [|l results IH]; intros sp.
  - intros [= <-]. simpl. lia.
  - cbn [StartPoints.format_loop].
    destruct (StartPoints.format_step h prev sp l) as [e | sp1] eqn:Hstep;
      [done |].
    cbn [mbind exc_bind]. intros Hrun.
    rewrite (IH _ Hrun), (format_step_advance _ _ _ _ _ Hstep).
    cbn [length]. lia.
Qed.

(** X9: on a tagged page, the start points [StartPoints.format] computes
    lie beyond the previous ones by, in total, the number of records on
    the page, and every provider it lists has advanced by at least one. *)
Theorem format_total_advance (h : heap) (prev : gmap string scalar)
    (results : list loc) :
  all_tagged h results ->
  exists start_points,
    StartPoints.format_loop h prev results ∅ = inr start_points
    /\ total_advance prev start_points = Z.of_nat (length results)
    /\ forall name v, start_points !! name = Some v ->
         StartPoints.prev_start prev name < v.
Proof.
  intros Htag.
  destruct (format_loop_from_empty h prev results Htag) as (sp & Hrun & Hsp).
  exists sp. split; [done |]. split.
  - rewrite (format_loop_advance _ _ _ _ _ Hrun).
    unfold total_advance. by rewrite map_fold_empty.
  - intros name v. rewrite Hsp. unfold updated_offset.
    destruct (Z.ltb_spec 0 (count_of h name results)); [|done].
    intros [= <-]. lia.
Qed.

Lemma format_total_advance_witness :
  all_tagged tagged_heap [0; 1; 2]%nat /\
  exists start_points,
    StartPoints.format_loop tagged_heap example_prev [0; 1; 2]%nat ∅
      = inr start_points
    /\ total_advance example_prev start_points = 3.
Proof.
  split; [exact tagged_heap_all_tagged |].
  destruct (format_total_advance tagged_heap example_prev [0; 1; 2]%nat
              tagged_heap_all_tagged) as (sp & Hrun & Htotal & _).
  exists sp. split; [exact Hrun | exact Htotal].
Defined.

(** X10: [StartPoints.format] reads the previous start points of the
    providers on the page only: two dicts of previous start points that
    agree on them give the same string. *)
Theorem format_reads_page_providers (dumps : json -> string) (h : heap)
    (prev prev' : gmap string scalar) (results : list loc) :
  (forall l n, l ∈ results -> h l !! "backend_name" = Some (VStr n) ->
     prev !! n = prev' !! n) ->
  StartPoints.format dumps h results prev
  = StartPoints.format dumps h results prev'.
Proof.
  intros Hagree. unfold StartPoints.format. f_equal.
  generalize (∅ : gmap string Z).
  induction results as [|l results IH]; intros sp; [done |].
  cbn [StartPoints.format_loop].
  assert (StartPoints.format_step h prev sp l
          = StartPoints.format_step h prev' sp l) as ->.
  { unfold StartPoints.format_step, getitem.
    destruct (h l !! "backend_name") as [[q | n]|] eqn:Hn; [done | | done].
    cbn [mbind exc_bind]. unfold StartPoints.prev_start.
    by rewrite (Hagree l n) by (done || left). }
  destruct (StartPoints.format_step h prev' sp l); [done |].
  cbn [mbind exc_bind]. apply IH.
  intros l' n Hl'. apply Hagree. by right.
Qed.

Lemma format_reads_page_providers_witness :
  (forall l n, l ∈ [0; 2]%nat ->
     tagged_heap l !! "backend_name" = Some (VStr n) ->
     example_prev !! n = (<["a" := SStr "3"]> ∅ : gmap string scalar) !! n) /\
  StartPoints.format example_dumps tagged_heap [0; 2]%nat example_prev
  = StartPoints.format example_dumps tagged_heap [0; 2]%nat (<["a" := SStr "3"]> ∅).
Proof.
  assert (Hagree : forall l n, l ∈ [0; 2]%nat ->
            tagged_heap l !! "backend_name" = Some (VStr n) ->
            example_prev !! n = (<["a" := SStr "3"]> ∅ : gmap string scalar) !! n).
  { intros l n Hl Hn.
    apply elem_of_cons in Hl as [-> | Hl];
      [|apply list_elem_of_singleton in Hl as ->];
      injection Hn as <-; reflexivity. }
  split; [exact Hagree |].
  exact (format_reads_page_providers example_dumps tagged_heap example_prev
           (<["a" := SStr "3"]> ∅) [0; 2]%nat Hagree).
Defined.

(** ** From the merge to the next-page link *)

Lemma resolved_other_key href_wiki r k :
  k ≠ "href" -> resolved href_wiki r !! k = r !! k.
Proof.
  intros Hk. unfold resolved. destruct (is_wiki r); [|done].
  destruct (r !! "title"); [|done]. by rewrite lookup_insert_ne.
Qed.

Lemma resolvable_tag n r : resolvable r -> resolvable (tag n r).
Proof.
  unfold resolvable, is_wiki, tag. by rewrite !lookup_insert_ne.
Qed.

Lemma slice_to_subset {A : Type} (l : list A) (stop : Z) (x : A) :
  x ∈ slice_to l stop -> x ∈ l.
Proof.
  unfold slice_to. set (k := Z.to_nat _). intros Hx.
  rewrite <- (firstn_skipn k l). apply elem_of_app. by left.
Qed.

(** The page of a search after the merge and the link resolution: every
    dict on it carries the name of a provider that returned it. *)
Lemma merged_page_tagged href_wiki items per_page h :
  all_scored h items ->
  Forall (fun l => resolvable (h l)) (concat (map snd items)) ->
  exists results h1 h2,
    merge_items items per_page h = (inr results, h1)
    /\ Z.of_nat (length results) =
       (if (per_page <? 0)%Z then Z.max 0 (total_results items + per_page)
        else Z.min per_page (total_results items))
    /\ _add_href_to_results href_wiki results h1 = (inr tt, h2)
    /\ forall l, l ∈ results ->
         exists n rs, (n, rs) ∈ items /\ l ∈ rs
           /\ h2 l !! "backend_name" = Some (VStr n).
Proof.
  intros Hsc Hres.
  rewrite (merge_items_run items per_page h Hsc).
  set (h1 := (merge_loop items [] h).2).
  set (results := slice_to _ per_page).
  assert (Hmem : forall l, l ∈ results ->
            l ∈ concat (map snd items)
            /\ exists n rs, (n, rs) ∈ items /\ l ∈ rs /\ h1 l = tag n (h l)).
  { intros l Hl. apply slice_to_subset in Hl.
    rewrite stable_sort_desc_perm in Hl. split; [done |].
    destruct (merge_loop_spec items [] h) as [_ Hh1]. unfold h1.
    rewrite Hh1. destruct (last_owner items l) as [n|] eqn:Hown.
    - apply last_owner_Some in Hown as (rs & ? & ?). by exists n, rs.
    - apply list_elem_of_In, in_concat in Hl as (rs & Hrs & Hl).
      apply in_map_iff in Hrs as ([n rs'] & <- & Hin). simpl in Hl.
      apply list_elem_of_In in Hin, Hl.
      by destruct (last_owner_None _ _ _ _ Hown Hin). }
  destruct (add_href_at href_wiki results h1) as (h2 & Hrun & Hh2).
  { apply List.Forall_forall. intros l Hl%list_elem_of_In.
    destruct (Hmem l Hl) as [Hall (n & rs & _ & _ & ->)]. apply resolvable_tag.
    rewrite List.Forall_forall in Hres. by apply Hres, list_elem_of_In. }
  exists results, h1, h2. split; [done |]. split.
  { unfold results, total_results.
    by rewrite slice_to_length, stable_sort_desc_length. }
  split; [done |].
  intros l Hl. destruct (Hmem l Hl) as [_ (n & rs & Hin & Hlrs & Hn)].
  exists n, rs. split; [done |]. split; [done |].
  rewrite Hh2, bool_decide_eq_true_2, resolved_other_key, Hn by done.
  unfold tag. by rewrite lookup_insert_eq.
Qed.

(** X11: when every returned dict has a score, a source, and a title if
    its source is wiki, the three steps of a search compose without an
    exception: [_merge_results] returns a page, [_add_href_to_results]
    resolves it, and [StartPoints.format] on the resolved page returns
    its string. *)
Theorem merge_links_format_compose (dumps : json -> string)
    (href_wiki : value -> string) (result_map : gmap string (list loc))
    (per_page : Z) (h : heap) (prev : gmap string scalar) :
  all_scored h (map_to_list result_map) ->
  Forall (fun l => resolvable (h l)) (concat (map snd (map_to_list result_map))) ->
  exists results h1 h2 s,
    _merge_results result_map per_page h = (inr results, h1)
    /\ _add_href_to_results href_wiki results h1 = (inr tt, h2)
    /\ StartPoints.format dumps h2 results prev = inr s.
Proof.
  unfold _merge_results. intros Hsc Hres.
  destruct (merged_page_tagged href_wiki _ per_page h Hsc Hres)
    as (results & h1 & h2 & Hmerge & _ & Hhref & Htags).
  destruct (format_loop_from_empty h2 prev results) as (sp & Hfmt & _).
  { apply List.Forall_forall. intros l Hl%list_elem_of_In.
    destruct (Htags l Hl) as (n & _ & _ & _ & Hn). by exists n. }
  exists results, h1, h2. eexists. split; [done |]. split; [done |].
  unfold StartPoints.format. by rewrite Hfmt.
Qed.

Lemma merge_links_format_compose_witness :
  all_scored fresh_heap (map_to_list one_backend) /\
  Forall (fun l => resolvable (fresh_heap l))
    (concat (map snd (map_to_list one_backend))) /\
  exists results h1 h2 s,
    _merge_results one_backend 10 fresh_heap = (inr results, h1)
    /\ _add_href_to_results example_href results h1 = (inr tt, h2)
    /\ StartPoints.format example_dumps h2 results example_prev = inr s.
Proof.
  assert (Hres : Forall (fun l => resolvable (fresh_heap l))
            (concat (map snd (map_to_list one_backend)))).
  { rewrite one_backend_items.
    repeat constructor; try (by eexists); intros _; by eexists. }
  split; [exact one_backend_scored |]. split; [exact Hres |].
  exact (merge_links_format_compose example_dumps example_href one_backend 10
           fresh_heap example_prev one_backend_scored Hres).
Defined.

(** ** StartPoints.parse_args and the request parameters *)

(** X12: the start point [StartPoints.parse_args] records for a
    provider depends on no request parameter but the provider's own,
    and the parameters of two providers of different names differ. *)
Theorem parse_args_own_parameter (req_args : gmap string arg)
    (providers : list provider) (name : string) :
  (forall k a, k ≠ StartPoints.FORMAT_STRING name ->
     StartPoints.parse_args (<[k := a]> req_args) providers !! name
     = StartPoints.parse_args req_args providers !! name)
  /\ (forall k, k ≠ StartPoints.FORMAT_STRING name ->
        StartPoints.parse_args (delete k req_args) providers !! name
        = StartPoints.parse_args req_args providers !! name)
  /\ (forall other, other ≠ name ->
        StartPoints.FORMAT_STRING other ≠ StartPoints.FORMAT_STRING name).
Proof.
  split; [|split].
  - intros k a Hk. rewrite !parse_args_lookup. unfold incoming, getfirst.
    by rewrite lookup_insert_ne.
  - intros k Hk. rewrite !parse_args_lookup. unfold incoming, getfirst.
    by rewrite lookup_delete_ne.
  - intros other Hne Heq. apply Hne.
    unfold StartPoints.FORMAT_STRING in Heq. simpl in Heq.
    by injection Heq.
Qed.

(** ** The request handler *)


Lemma query_providers_names providers data h total result_map calls :
  map fst (query_providers providers data h total result_map calls).2 =
  map fst calls ++ names providers.
Proof.
  revert data h total result_map calls.
  induction providers as [|p ps IH]; intros data h total rm calls.
  - simpl. by rewrite app_nil_r.
  - cbn [query_providers].
    destruct (query_backend p data h) as [[count lst] [d' h']].
    rewrite IH, map_app. simpl. by rewrite <- app_assoc.
Qed.

Lemma query_providers_head providers data h total result_map calls c :
  head calls = Some c ->
  head (query_providers providers data h total result_map calls).2 = Some c.
Proof.
  revert data h total result_map calls.
  induction providers as [|p ps IH]; intros data h total rm calls Hc; [done |].
  cbn [query_providers].
  destruct (query_backend p data h) as [[count lst] [d' h']].
  apply IH. by destruct calls.
Qed.

(** X14: on a search, every registered provider is queried exactly
    once, in the order of the provider list, whatever the backends
    return or do to the dict they are handed, and whether or not a later
    step raises; the first one receives the criteria as built from the
    request. *)
Theorem every_provider_queried_once (href_wiki : value -> string)
    (Paginator : list loc -> Z -> Z -> Z -> exc paginator)
    (dumps : json -> string) (providers : list provider) (req : request)
    (h : heap) :
  "SEARCH_VIEW" ∈ perm req ->
  query_is_empty (args req !! "q") = false ->
  let calls :=
    backend_calls (process_request href_wiki Paginator dumps providers req h) in
  map fst calls = names providers
  /\ head calls =
     (fun p => (get_name p, initial_data providers (args req))) <$> head providers.
Proof.
  intros Hperm Hq calls. subst calls.
  rewrite process_request_calls by done. split.
  - by rewrite query_providers_names.
  - destruct providers as [|p ps]; [done |].
    cbn [query_providers head fmap option_fmap option_map].
    destruct (query_backend p _ h) as [[count lst] [d' h']].
    by apply query_providers_head.
Qed.

(** A backend that rewrites the criteria it is handed. *)
Lemma every_provider_queried_once_witness :
  let meddler := {| get_name := "m";
                    query_backend := fun data h => ((3, []), (∅, h)) |} in
  "SEARCH_VIEW" ∈ perm search_request /\
  query_is_empty (args search_request !! "q") = false /\
  map fst (backend_calls (process_request example_href example_paginator
                            example_dumps [meddler; quiet_backend "a"]
                            search_request empty_heap))
  = ["m"; "a"].
Proof.
  intros meddler. split; [apply may_search |]. split; [reflexivity |].
  exact (proj1 (every_provider_queried_once example_href example_paginator
                  example_dumps [meddler; quiet_backend "a"] search_request
                  empty_heap may_search eq_refl)).
Defined.

(** X15: the data a search returns: the template is [advsearch.html],
    ['source_filters'] lists the filters [wiki] and [ticket] in this
    order, each with the value of the request parameter of its own name,
    and ['results'] is the [Paginator] built for page [page - 1] with
    [per_page] as its page size. *)
Theorem search_response_data (href_wiki : value -> string)
    (Paginator : list loc -> Z -> Z -> Z -> exc paginator)
    (dumps : json -> string) (providers : list provider) (req : request)
    (h : heap) (template : string) (data : gmap string dval) :
  returned (process_request href_wiki Paginator dumps providers req h)
    = inr (template, data) ->
  query_is_empty (args req !! "q") = false ->
  template = "advsearch.html"
  /\ data !! "source_filters" =
       Some (DFilters [("wiki", args req !! "wiki");
                       ("ticket", args req !! "ticket")])
  /\ exists results total_count pg,
       Paginator results (request_page (args req) - 1)
         (request_per_page (args req)) total_count = inr pg
       /\ data !! "results" = Some (DResults pg).
Proof.
  unfold process_request. destruct (negb _); [done |].
  intros Hret Hq. rewrite Hq in Hret.
  destruct (query_providers _ _ _ _ _ _) as [[[[d h1] total] rm] calls].
  destruct (_merge_results _ _ _) as [[e | results] h2]; [done |].
  destruct (_add_href_to_results _ _ _) as [[e | []] h3]; [done |].
  destruct (Paginator _ _ _ _) as [e | pg] eqn:Hpg; [done |].
  destruct (finish _ _ _ _ _ _) as [r log] eqn:Hfin.
  cbn [returned] in Hret. subst r.
  apply finish_returns in Hfin. injection Hfin as -> ->.
  split; [done |]. split.
  - do 3 (rewrite lookup_insert_ne by done). by rewrite lookup_insert_eq.
  - exists results, total, pg. split; [done |]. by rewrite lookup_insert_eq.
Qed.

Lemma search_response_data_witness :
  exists data,
    returned (process_request example_href example_paginator example_dumps
                [quiet_backend "a"] search_request empty_heap)
      = inr ("advsearch.html", data)
    /\ query_is_empty (args search_request !! "q") = false
    /\ data !! "source_filters" = Some (DFilters [("wiki", None); ("ticket", None)]).
Proof.
  eexists. split; [vm_compute; reflexivity |]. split; [reflexivity |].
  exact (proj1 (proj2 (search_response_data example_href example_paginator
                         example_dumps [quiet_backend "a"] search_request
                         empty_heap _ _ eq_refl eq_refl))).
Defined.


(** X16: a request without a query records on the request a warning
    when no provider is registered (and only then), followed by the two
    stylesheets and the script, and nothing else. *)
Theorem empty_query_chrome (href_wiki : value -> string)
    (Paginator : list loc -> Z -> Z -> Z -> exc paginator)
    (dumps : json -> string) (providers : list provider) (req : request)
    (h : heap) :
  "SEARCH_VIEW" ∈ perm req ->
  args req !! "q" = None \/ args req !! "q" = Some (AStr "") ->
  chrome_calls (process_request href_wiki Paginator dumps providers req h) =
  match providers with
  | [] => [AddWarning
             "No advanced search providers found. You must register a search backend."]
  | _ :: _ => []
  end
  ++ [AddStylesheet "common/css/search.css";
      AddStylesheet "advsearch/css/advsearch.css";
      AddScript "advsearch/js/advsearch.js"].
Proof.
  intros Hperm Hq. unfold process_request.
  rewrite bool_decide_eq_true_2 by done. cbn [negb].
  assert (query_is_empty (args req !! "q") = true) as ->
    by (destruct Hq as [-> | ->]; reflexivity).
  unfold _send_response. rewrite initial_data_no_results.
  cbn [chrome_calls mret exc_ret]. by destruct providers.
Qed.

Lemma empty_query_chrome_witness :
  "SEARCH_VIEW" ∈ perm blank_request /\
  (args blank_request !! "q" = None \/ args blank_request !! "q" = Some (AStr "")) /\
  chrome_calls (process_request example_href example_paginator example_dumps
                  [] blank_request empty_heap) =
  [AddWarning
     "No advanced search providers found. You must register a search backend.";
   AddStylesheet "common/css/search.css";
   AddStylesheet "advsearch/css/advsearch.css";
   AddScript "advsearch/js/advsearch.js"].
Proof.
  split; [apply may_search |]. split; [right; reflexivity |].
  exact (empty_query_chrome example_href example_paginator example_dumps []
           blank_request empty_heap may_search (or_intror eq_refl)).
Defined.




Example busy_search_links :
  chrome_calls (process_request example_href example_paginator example_dumps
                  [busy_backend] search_request fresh_heap)
  = [AddLink "next" "javascript:next_page([...])" "Next Page";
     AddLink "prev" "javascript:history.go(-1)" "Previous Page";
     AddStylesheet "common/css/search.css";
     AddStylesheet "advsearch/css/advsearch.css";
     AddScript "advsearch/js/advsearch.js"].
Proof. vm_compute. reflexivity. Qed.

(** ** match_request *)

(** X18: [match_request] accepts exactly the paths that begin with
    [/advsearc]: the pattern is matched at the start of the path only
    and its last character is optional, so [/advsearch], [/advsearc] and
    any longer path with this beginning are all handled. *)
Theorem match_request_prefix (path_info : string) :
  match_request path_info = true
  <-> exists rest, path_info = ("/advsearc" ++ rest)%string.
Proof.
  unfold match_request, advsearch_pattern. split.
  - intros Hm.
    do 9 (destruct path_info as [|c path_info]; [discriminate Hm |];
          cbn [re_match] in Hm;
          apply andb_prop in Hm as [Hc Hm];
          apply Ascii.eqb_eq in Hc as ->).
    by exists path_info.
  - intros [rest ->]. cbn. apply orb_true_r.
Qed.

Example match_request_exact : match_request "/advsearch" = true.
Proof. reflexivity. Qed.
Example match_request_longer : match_request "/advsearchable/x" = true.
Proof. reflexivity. Qed.
Example match_request_shorter : match_request "/advsearc" = true.
Proof. reflexivity. Qed.
Example match_request_search : match_request "/search" = false.
Proof. reflexivity. Qed.
Example match_request_inner : match_request "/trac/advsearch" = false.
Proof. reflexivity. Qed.

(** ** The cursor of a page *)

(** X19: for a page size that is not negative, the start points
    computed for the merged and resolved page lie beyond the previous
    ones by at most [per_page] in total (by exactly the number of
    results when there are fewer), and name only providers that are
    keys of the result map. *)
Theorem cursor_advance_bounded (href_wiki : value -> string)
    (result_map : gmap string (list loc)) (per_page : Z) (h : heap)
    (prev : gmap string scalar) :
  0 <= per_page ->
  all_scored h (map_to_list result_map) ->
  Forall (fun l => resolvable (h l)) (concat (map snd (map_to_list result_map))) ->
  exists results h1 h2 start_points,
    _merge_results result_map per_page h = (inr results, h1)
    /\ _add_href_to_results href_wiki results h1 = (inr tt, h2)
    /\ StartPoints.format_loop h2 prev results ∅ = inr start_points
    /\ total_advance prev start_points
        = Z.min per_page (total_results (map_to_list result_map))
    /\ forall name, is_Some (start_points !! name) ->
         is_Some (result_map !! name).
Proof.
  unfold _merge_results. intros Hpp Hsc Hres.
  destruct (merged_page_tagged href_wiki _ per_page h Hsc Hres)
    as (results & h1 & h2 & Hmerge & Hlen & Hhref & Htags).
  destruct (Z.ltb_spec per_page 0); [lia |].
  assert (Htagged : all_tagged h2 results).
  { apply List.Forall_forall. intros l Hl%list_elem_of_In.
    destruct (Htags l Hl) as (n & _ & _ & _ & Hn). by exists n. }
  destruct (format_loop_from_empty h2 prev results Htagged) as (sp & Hfmt & Hsp).
  exists results, h1, h2, sp. split; [done |]. split; [done |].
  split; [done |]. split.
  - rewrite (format_loop_advance _ _ _ _ _ Hfmt), <- Hlen.
    unfold total_advance. by rewrite map_fold_empty.
  - intros name [v Hv]. rewrite Hsp in Hv. unfold updated_offset in Hv.
    destruct (Z.ltb_spec 0 (count_of h2 name results)) as [Hpos |]; [|done].
    unfold count_of in Hpos.
    destruct (List.filter (tagged_with h2 name) results) as [|l ls] eqn:Hf;
      [simpl in Hpos; lia |].
    assert (Hl : List.In l (List.filter (tagged_with h2 name) results))
      by (rewrite Hf; by left).
    apply List.filter_In in Hl as [Hl Htag].
    destruct (Htags l) as (n & rs & Hin & _ & Hn); [by apply list_elem_of_In |].
    unfold tagged_with in Htag. rewrite Hn in Htag.
    apply String.eqb_eq in Htag as <-.
    apply elem_of_map_to_list in Hin. by exists rs.
Qed.

Lemma cursor_advance_bounded_witness :
  0 <= 1 /\
  all_scored fresh_heap (map_to_list one_backend) /\
  Forall (fun l => resolvable (fresh_heap l))
    (concat (map snd (map_to_list one_backend))) /\
  exists results h1 h2 start_points,
    _merge_results one_backend 1 fresh_heap = (inr results, h1)
    /\ _add_href_to_results example_href results h1 = (inr tt, h2)
    /\ StartPoints.format_loop h2 example_prev results ∅ = inr start_points
    /\ total_advance example_prev start_points = 1.
Proof.
  assert (Hres : Forall (fun l => resolvable (fresh_heap l))
            (concat (map snd (map_to_list one_backend)))).
  { rewrite one_backend_items.
    repeat constructor; try (by eexists); intros _; by eexists. }
  split; [lia |]. split; [exact one_backend_scored |]. split; [exact Hres |].
  destruct (cursor_advance_bounded example_href one_backend 1 fresh_heap
              example_prev ltac:(lia) one_backend_scored Hres)
    as (results & h1 & h2 & sp & Hmerge & Hhref & Hfmt & Htotal & _).
  exists results, h1, h2, sp. split; [exact Hmerge |]. split; [exact Hhref |].
  split; [exact Hfmt |]. rewrite Htotal. unfold total_results.
  rewrite one_backend_items. reflexivity.
Defined.
